(** * Token lifecycle of the Coze OAuth (PKCE) demo server

    A shallow embedding of the route handlers of [src/index.js]
    ([/login], [/callback], [/refresh_token], [/token], [/logout]) and the
    properties of the authorization / token lifecycle they implement.

    Modelling conventions.
    - JavaScript values are the inductive [jsval]; numbers are abstracted to
      integers plus [NaN] (the handlers only add and multiply millisecond
      counts), strings are sequences of UTF-16 code units.
    - A handler is a computation in the monad [M]: it threads the Koa context
      (session, status, body) together with the log of calls made to the
      provider SDK, and may throw; the context survives a throw, as it does
      in JavaScript when a [try] block is left through [catch].
    - The provider SDK ([@coze/api]), the clock and the few builtins whose
      result depends on the engine or the locale are interfaces.
    - [console.log] / [console.error] are not modelled; the HTML templates
      are outside the source, so a rendered page is kept as the template
      name with the variables substituted into it. *)

From Stdlib Require Import List ZArith NArith Bool String Ascii Lia.
Import ListNotations.

Set Warnings "-register-all".

Local Open Scope Z_scope.

(** ** JavaScript strings *)

(** A string is its sequence of UTF-16 code units. *)
Definition jsstring := list N.

(** A literal of the source; all of them are ASCII. *)
Definition lit (s : string) : jsstring :=
  List.map N_of_ascii (list_ascii_of_string s).

Definition jsstring_eqb (a b : jsstring) : bool :=
  if list_eq_dec N.eq_dec a b then true else false.

(** WhiteSpace and LineTerminator code points of ECMAScript, the characters
    removed by [String.prototype.trim]. *)
Definition isWhiteSpace (c : N) : bool :=
  (List.existsb (N.eqb c)
     [ 0x0009; 0x000A; 0x000B; 0x000C; 0x000D; 0x0020; 0x00A0; 0x1680;
       0x2028; 0x2029; 0x202F; 0x205F; 0x3000; 0xFEFF ]
   || ((0x2000 <=? c) && (c <=? 0x200A)))%N.

Fixpoint trimStart (s : jsstring) : jsstring :=
  match s with
  | [] => []
  | c :: r => if isWhiteSpace c then trimStart r else s
  end.

Definition trimEnd (s : jsstring) : jsstring := rev (trimStart (rev s)).

Definition trim (s : jsstring) : jsstring := trimEnd (trimStart s).

(** ** JavaScript values *)

Inductive jsnum : Type :=
| Fin (n : Z)
| NaN.

Inductive jsval : Type :=
| VUndefined
| VNull
| VBool (b : bool)
| VNum (x : jsnum)
| VStr (s : jsstring)
| VArr (items : list jsval)
| VObj (props : list (jsstring * jsval)).

(** ToBoolean. *)
Definition truthy (v : jsval) : bool :=
  match v with
  | VUndefined | VNull => false
  | VBool b => b
  | VNum (Fin n) => negb (n =? 0)
  | VNum NaN => false
  | VStr s => match s with [] => false | _ => true end
  | VArr _ | VObj _ => true
  end.

(** [a || b]. *)
Definition js_or (a b : jsval) : jsval := if truthy a then a else b.

Fixpoint lookup_prop (props : list (jsstring * jsval)) (k : jsstring) : jsval :=
  match props with
  | [] => VUndefined
  | (k', v) :: rest => if jsstring_eqb k' k then v else lookup_prop rest k
  end.

(** Property read [o.k] (also the destructuring [const { k } = o]) for a
    property that no prototype defines: own property of an object, and
    [undefined] on arrays and primitives.  Reading from [undefined] or
    [null] throws in JavaScript; every read below is on a value already
    known to be neither. *)
Definition get_prop (o : jsval) (k : jsstring) : jsval :=
  match o with
  | VObj props => lookup_prop props k
  | _ => VUndefined
  end.

(** An exception value, by its message. *)
Record Error : Type := { message : jsstring }.

(** Builtins of the engine and calls of the Koa framework whose result the
    source does not fix. *)
Class JSRuntime : Type := {
  (** [Number(s)] on a string. *)
  StringToNumber : jsstring -> jsnum;
  (** Interpolation of a value in a template literal. *)
  ToString : jsval -> jsstring;
  (** [new Date(ms).toLocaleString()]. *)
  Date_toLocaleString : jsnum -> jsstring;
  (** Messages of the TypeErrors raised when a missing method is called,
      and when a property of [null] is read or written. *)
  not_a_function : jsstring;
  property_of_null : jsstring;
  (** [ctx.redirect(url)] passes a url that starts with [http://] or
      [https://] through [new URL(url)]: the TypeError thrown for a url
      that does not parse, [None] when the call goes through. *)
  redirect_error : jsval -> option Error;
  (** Koa's default answer to an error no handler caught: the status it
      takes from the error (404 for [ENOENT], else the error's own status
      or 500) and the text of that status. *)
  uncaught_response : Error -> Z * jsstring
}.

Section Builtins.
Context {rt : JSRuntime}.

(** [Number(v)]; arrays and objects are converted through their string
    form. *)
Definition Number (v : jsval) : jsnum :=
  match v with
  | VUndefined => NaN
  | VNull => Fin 0
  | VBool b => Fin (if b then 1 else 0)
  | VNum x => x
  | VStr s => StringToNumber s
  | VArr _ | VObj _ => StringToNumber (ToString v)
  end.

(** [x || 0] on a number. *)
Definition num_or_zero (x : jsnum) : Z :=
  match x with
  | Fin n => n
  | NaN => 0
  end.

Definition num_mul (x : jsnum) (k : Z) : jsnum :=
  match x with
  | Fin n => Fin (n * k)
  | NaN => NaN
  end.

(** [x + y] on numbers. *)
Definition num_add (x y : jsnum) : jsnum :=
  match x, y with
  | Fin a, Fin b => Fin (a + b)
  | _, _ => NaN
  end.

(** [timestampToDatetime] (index.js, line 71). *)
Definition timestampToDatetime (timestamp : jsval) : jsstring :=
  Date_toLocaleString (num_mul (Number timestamp) 1000).
End Builtins.

(** ** Data model *)

(** The object stored under [ctx.session.oauth] (index.js, lines 230-237 and
    282-288). *)
Record OAuthRecord : Type := {
  token_type : jsval;
  access_token : jsval;
  refresh_token : jsval;
  expires_in : jsval;
  expire_at : Z
}.

(** The session object of koa-session: the two properties the handlers
    read and write.  [oauth = None] is the property being undefined. *)
Record Session : Type := {
  codeVerifier : jsval;
  oauth : option OAuthRecord
}.

Definition empty_session : Session :=
  {| codeVerifier := VUndefined; oauth := None |}.

(** [coze_oauth_config.json] as returned by [loadConfig]. *)
Record Config : Type := {
  client_type : jsval;
  client_id : jsval;
  coze_www_base : jsval;
  coze_api_base : jsval;
  websdk_pat : jsval;
  pat : jsval
}.

(** [process.env]: a variable is a string or is not set. *)
Record Env : Type := {
  COZE_PAT : option jsstring
}.

Definition env_value (v : option jsstring) : jsval :=
  match v with
  | Some s => VStr s
  | None => VUndefined
  end.

Definition REDIRECT_URI : jsval := VStr (lit "http://127.0.0.1:8080/callback").

(** ** The provider SDK *)

(** Outcome of evaluating an expression, or of awaiting a promise. *)
Inductive completion (A : Type) : Type :=
| Normal (a : A)
| Throw (e : Error).
Arguments Normal {A} a.
Arguments Throw {A} e.

(** What [getPKCEAuthenticationUrl] resolves to. *)
Record AuthUrl : Type := {
  auth_codeVerifier : jsval;
  auth_url : jsval
}.

(** What [getPKCEOAuthToken] and [refreshOAuthToken] resolve to. *)
Record OAuthToken : Type := {
  tok_access_token : jsval;
  tok_refresh_token : jsval;
  tok_expires_in : jsval
}.

(** A call to the SDK with the properties of its argument object. *)
Inductive ApiCall : Type :=
| GetPKCEAuthenticationUrl (baseURL clientId redirectUrl : jsval)
| GetPKCEOAuthToken (baseURL clientId code redirectUrl codeVerifier : jsval)
| RefreshOAuthToken (baseURL clientId refreshToken : jsval).

(** The three functions imported from [@coze/api]; a rejected promise is a
    [Throw].  Arguments are in the order of [ApiCall]. *)
Class CozeApi : Type := {
  getPKCEAuthenticationUrl : jsval -> jsval -> jsval -> completion AuthUrl;
  getPKCEOAuthToken :
    jsval -> jsval -> jsval -> jsval -> jsval -> completion OAuthToken;
  refreshOAuthToken : jsval -> jsval -> jsval -> completion OAuthToken
}.

(** ** The Koa context and the handler monad *)

Inductive Body : Type :=
| BValue (v : jsval)
| BRendered (template : jsstring) (variables : list (jsstring * jsval))
| BRedirect (url : jsval).

Record Ctx : Type := {
  session : option Session;   (* [None] once [ctx.session = null] ran *)
  status : option Z;          (* a status set explicitly *)
  body : option Body;
  trace : list ApiCall        (* provider calls made so far *)
}.

Definition M (A : Type) : Type := Ctx -> completion A * Ctx.

Definition ret {A} (a : A) : M A := fun c => (Normal a, c).

Definition bind {A B} (m : M A) (k : A -> M B) : M B :=
  fun c =>
    match m c with
    | (Normal a, c') => k a c'
    | (Throw e, c') => (Throw e, c')
    end.

Definition throw {A} (e : Error) : M A := fun c => (Throw e, c).

(** [try { m } catch (error) { h error }]: the handler runs in the context
    the block left behind. *)
Definition try_catch {A} (m : M A) (h : Error -> M A) : M A :=
  fun c =>
    match m c with
    | (Normal a, c') => (Normal a, c')
    | (Throw e, c') => h e c'
    end.

Declare Scope handler_scope.
Delimit Scope handler_scope with handler.
Notation "x <- m ;; k" := (bind m (fun x => k))
  (at level 61, m at next level, right associativity) : handler_scope.
Notation "m ;; k" := (bind m (fun _ => k))
  (at level 61, right associativity) : handler_scope.
Local Open Scope handler_scope.

Definition set_session (c : Ctx) (s : option Session) : Ctx :=
  {| session := s; status := status c; body := body c; trace := trace c |}.

Definition ctx_session : M (option Session) := fun c => (Normal (session c), c).

(** [ctx.session = null] *)
Definition assign_session_null : M unit :=
  fun c => (Normal tt, set_session c None).

(** [ctx.status = n] *)
Definition assign_status (n : Z) : M unit :=
  fun c =>
    (Normal tt,
     {| session := session c; status := Some n; body := body c;
        trace := trace c |}).

(** [ctx.body = b] *)
Definition assign_body (b : Body) : M unit :=
  fun c =>
    (Normal tt,
     {| session := session c; status := status c; body := Some b;
        trace := trace c |}).

(** [ctx.redirect(url)]: Koa parses the url, which may throw before
    anything is set, then sets the status to 302 and, from the url, the
    [Location] header and a body naming the target. *)
Definition redirect {rt : JSRuntime} (url : jsval) : M unit :=
  fun c =>
    match redirect_error url with
    | Some error => (Throw error, c)
    | None =>
        (Normal tt,
         {| session := session c; status := Some 302;
            body := Some (BRedirect url); trace := trace c |})
    end.

(** [await f(args)], where the SDK answers [r]: the call is logged. *)
Definition await {A} (call : ApiCall) (r : completion A) : M A :=
  fun c =>
    (r,
     {| session := session c; status := status c; body := body c;
        trace := trace c ++ [call] |}).

(** [renderTemplate] (index.js, line 53), with the template file kept by
    name. *)
Definition renderTemplate (template : string)
    (variables : list (jsstring * jsval)) : Body :=
  BRendered (lit template) variables.

Definition err (msg : jsstring) : jsval := VObj [ (lit "error", VStr msg) ].

Section Handlers.
Context {rt : JSRuntime}.
Variable config : Config.
Variable env : Env.

(** A property read or write on [ctx.session] throws a TypeError once the
    session is [null]. *)
Definition with_session {A} (f : Session -> M A) : M A :=
  s <- ctx_session ;;
  match s with
  | Some s => f s
  | None => throw {| message := property_of_null |}
  end.

(** [ctx.session.codeVerifier] *)
Definition session_codeVerifier : M jsval :=
  with_session (fun s => ret (codeVerifier s)).

(** [ctx.session.codeVerifier = v] *)
Definition assign_codeVerifier (v : jsval) : M unit :=
  with_session (fun s c =>
    (Normal tt,
     set_session c (Some {| codeVerifier := v; oauth := oauth s |}))).

(** [ctx.session.oauth = r] *)
Definition assign_oauth (r : OAuthRecord) : M unit :=
  with_session (fun s c =>
    (Normal tt,
     set_session c (Some {| codeVerifier := codeVerifier s; oauth := Some r |}))).

(** [ctx.session && ctx.session.oauth] *)
Definition session_oauth : M (option OAuthRecord) :=
  s <- ctx_session ;;
  ret (match s with
       | Some s => oauth s
       | None => None
       end).

(** The record literal written to the session by [/callback] and
    [/refresh_token], evaluated at the instant [now] read from [Date.now()]. *)
Definition new_record (now : Z) (oauthToken : OAuthToken) : OAuthRecord :=
  {| token_type := VStr (lit "pkce");
     access_token := tok_access_token oauthToken;
     refresh_token := tok_refresh_token oauthToken;
     expires_in := tok_expires_in oauthToken;
     expire_at :=
       now + num_or_zero (Number (tok_expires_in oauthToken)) * 1000 |}.

(** The template literal [`${oauthToken.expires_in} (${expiresStr})`]. *)
Definition expires_text (oauthToken : OAuthToken) : jsval :=
  VStr (ToString (tok_expires_in oauthToken) ++ lit " ("
        ++ timestampToDatetime (tok_expires_in oauthToken) ++ lit ")").

Section Provider.
Context {api : CozeApi}.
Variable now : Z.

(** [router.get("/login", ...)] (index.js, lines 177-196). *)
Definition login : M unit :=
  try_catch
    (r <- await
            (GetPKCEAuthenticationUrl (coze_api_base config) (client_id config)
               REDIRECT_URI)
            (getPKCEAuthenticationUrl (coze_api_base config) (client_id config)
               REDIRECT_URI) ;;
     assign_codeVerifier (auth_codeVerifier r) ;;
     redirect (auth_url r))
    (fun error =>
       assign_status 500 ;;
       assign_body
         (renderTemplate "error.html"
            [ (lit "error",
               VStr (lit "Failed to generate authorization URL: "
                     ++ message error)) ])).

(** [router.get("/callback", ...)] (index.js, lines 199-257). *)
Definition callback (query : jsval) : M unit :=
  let code := get_prop query (lit "code") in
  codeVerifier <- session_codeVerifier ;;
  if negb (truthy code) then
    assign_status 400 ;;
    assign_body
      (renderTemplate "error.html"
         [ (lit "error",
            VStr (lit "Authorization failed: No authorization code received")) ])
  else if negb (truthy codeVerifier) then
    assign_status 400 ;;
    assign_body
      (renderTemplate "error.html"
         [ (lit "error",
            VStr (lit "Authorization failed: No code verifier found")) ])
  else
    try_catch
      (oauthToken <- await
                       (GetPKCEOAuthToken (coze_api_base config)
                          (client_id config) code REDIRECT_URI codeVerifier)
                       (getPKCEOAuthToken (coze_api_base config)
                          (client_id config) code REDIRECT_URI codeVerifier) ;;
       assign_oauth (new_record now oauthToken) ;;
       assign_body
         (renderTemplate "callback.html"
            [ (lit "token_type", VStr (lit "pkce"));
              (lit "access_token", tok_access_token oauthToken);
              (lit "refresh_token", tok_refresh_token oauthToken);
              (lit "expires_in", expires_text oauthToken) ]))
      (fun error =>
         assign_status 500 ;;
         assign_body
           (renderTemplate "error.html"
              [ (lit "error",
                 VStr (lit "Failed to get access token: "
                       ++ message error)) ])).

(** [let { refresh_token } = ctx.request.body || {}] *)
Definition body_refresh_token (request_body : jsval) : jsval :=
  get_prop (js_or request_body (VObj [])) (lit "refresh_token").

(** [ctx.session.oauth.refresh_token], guarded by [ctx.session.oauth &&]. *)
Definition session_refresh_token (o : option OAuthRecord) : jsval :=
  match o with
  | Some r => refresh_token r
  | None => VUndefined
  end.

(** The refresh token [/refresh_token] goes on with (index.js, lines
    262-266): the body's, unless it is falsy and the session record has a
    truthy one. *)
Definition resolve_refresh_token (request_body : jsval)
    (o : option OAuthRecord) : jsval :=
  let refresh_token := body_refresh_token request_body in
  if negb (truthy refresh_token) && truthy (session_refresh_token o)
  then session_refresh_token o
  else refresh_token.

(** [router.post("/refresh_token", ...)] (index.js, lines 260-301). *)
Definition refresh (request_body : jsval) : M unit :=
  try_catch
    (o <- session_oauth ;;
     let refresh_token := resolve_refresh_token request_body o in
     if negb (truthy refresh_token) then
       assign_status 401 ;;
       assign_body
         (BValue (err (lit "No refresh token available. Please re-login.")))
     else
       oauthToken <- await
                       (RefreshOAuthToken (coze_api_base config)
                          (client_id config) refresh_token)
                       (refreshOAuthToken (coze_api_base config)
                          (client_id config) refresh_token) ;;
       assign_oauth (new_record now oauthToken) ;;
       assign_body
         (BValue
            (VObj [ (lit "token_type", VStr (lit "pkce"));
                    (lit "access_token", tok_access_token oauthToken);
                    (lit "refresh_token", tok_refresh_token oauthToken);
                    (lit "expires_in", expires_text oauthToken) ])))
    (fun error =>
       assign_status 500 ;;
       assign_body
         (BValue (err (lit "Failed to refresh token: " ++ message error)))).

End Provider.

(** [process.env.COZE_PAT || config.websdk_pat || config.pat || ''] *)
Definition pat_source : jsval :=
  js_or (js_or (js_or (env_value (COZE_PAT env)) (websdk_pat config))
           (pat config))
        (VStr []).

(** [v.trim()]: only a string has the method. *)
Definition String_trim (v : jsval) : M jsstring :=
  match v with
  | VStr s => ret (trim s)
  | _ => throw {| message := not_a_function |}
  end.

(** [router.get("/token", ...)] (index.js, lines 304-338). *)
Definition token : M unit :=
  try_catch
    (oauth <- session_oauth ;;
     let public_mode : M unit :=
       pat <- String_trim pat_source ;;
       if truthy (VStr pat) then
         assign_body
           (BValue
              (VObj [ (lit "token_type", VStr (lit "pat"));
                      (lit "access_token", VStr pat) ]))
       else
         assign_status 401 ;;
         assign_body
           (BValue
              (err (lit "Public PAT not configured. Set env COZE_PAT or websdk_pat in coze_oauth_config.json.")))
     in
     match oauth with
     | Some o =>
         if truthy (access_token o) then
           assign_body
             (BValue
                (VObj [ (lit "token_type",
                         js_or (token_type o) (VStr (lit "pkce")));
                        (lit "access_token", access_token o) ]))
         else public_mode
     | None => public_mode
     end)
    (fun error =>
       assign_status 500 ;;
       assign_body
         (BValue (err (lit "Failed to provide token: " ++ message error)))).

(** [router.post("/logout", ...)] (index.js, lines 341-345). *)
Definition logout : M unit :=
  assign_session_null ;;
  assign_status 200 ;;
  assign_body (BValue (VObj [ (lit "ok", VBool true) ])).

End Handlers.

(** ** Running a handler *)

(** The context a request starts with: koa-session hands the handler the
    session object decoded from the cookie (an empty one when there is no
    valid cookie); nothing is set yet. *)
Definition start (s : Session) : Ctx :=
  {| session := Some s; status := None; body := None; trace := [] |}.

(** Koa's default error handler, for an exception no [catch] took: it
    drops every header already set, the session cookie among them, so the
    browser keeps the session [s] it sent, and answers with the status and
    text the error stands for. *)
Definition onerror {rt : JSRuntime} (s : Session) (error : Error) (c : Ctx)
  : Ctx :=
  {| session := Some s; status := Some (fst (uncaught_response error));
     body := Some (BValue (VStr (snd (uncaught_response error))));
     trace := trace c |}.

Definition handle {rt : JSRuntime} (h : M unit) (s : Session) : Ctx :=
  match h (start s) with
  | (Normal _, c) => c
  | (Throw error, c) => onerror s error c
  end.

(** The status of the response: the one set explicitly, else 200 once a
    body was assigned, else Koa's default 404. *)
Definition response_status (c : Ctx) : Z :=
  match status c with
  | Some n => n
  | None => match body c with
            | Some _ => 200
            | None => 404
            end
  end.

(** The session the cookie holds after the request: koa-session writes
    the session object back to the cookie, and drops the cookie when the
    session was set to [null].  The next request of the same browser
    starts with it for as long as the cookie lives (see
    [arriving_session]). *)
Definition next_session (c : Ctx) : Session :=
  match session c with
  | Some s => s
  | None => empty_session
  end.

(** [maxAge] of [SESSION_CONFIG] (index.js, line 84), in milliseconds. *)
Definition SESSION_maxAge : Z := 86400000.

(** The session a request starts with when it arrives at instant
    [arrival] with a cookie that holds [s] and was written at instant
    [saved]: koa-session stamps the cookie with [saved + maxAge] and
    hands out a fresh, empty session once that instant is past.  The
    cookie is written when the session changes; [rolling] and [renew] are
    off, so reading it does not extend its life. *)
Definition arriving_session (saved : Z) (s : Session) (arrival : Z)
  : Session :=
  if saved + SESSION_maxAge <? arrival then empty_session else s.

(** The handlers as transitions of the session. *)
Inductive Request : Type :=
| GET_login
| GET_callback (query : jsval)
| POST_refresh_token (request_body : jsval)
| GET_token
| POST_logout.

Section Server.
Context {rt : JSRuntime}.
Variable config : Config.
Variable env : Env.

Definition route (api : CozeApi) (now : Z) (r : Request) : M unit :=
  match r with
  | GET_login => login config
  | GET_callback query => callback config now query
  | POST_refresh_token request_body => refresh config now request_body
  | GET_token => token config env
  | POST_logout => logout
  end.

(** Sessions the server can hand out: from no cookie, any sequence of
    requests, with any answers of the provider and any clock readings.  A
    cookie that expired gives the empty session, which is among them. *)
Inductive reachable : Session -> Prop :=
| reachable_empty : reachable empty_session
| reachable_step (api : CozeApi) (now : Z) (r : Request) (s : Session) :
    reachable s ->
    reachable (next_session (handle (route api now r) s)).

End Server.

(** [oauth && oauth.access_token], as a test. *)
Definition holds_token (s : Session) : bool :=
  match oauth s with
  | Some o => truthy (access_token o)
  | None => false
  end.

(** Every record in a session was built by [new_record]: its [token_type]
    is the literal ["pkce"]. *)
Definition pkce_typed (s : Session) : Prop :=
  forall o, oauth s = Some o -> token_type o = VStr (lit "pkce").

(** ** Sample collaborators, for concrete runs *)

Definition sample_runtime : JSRuntime :=
  {| StringToNumber := fun _ => NaN;
     ToString := fun _ => lit "?";
     Date_toLocaleString := fun _ => lit "?";
     not_a_function := lit "trim is not a function";
     property_of_null := lit "Cannot read properties of null";
     redirect_error := fun _ => None;
     uncaught_response := fun _ => (500, lit "Internal Server Error") |}.

(** A runtime in which [ctx.redirect] rejects every url. *)
Definition strict_runtime : JSRuntime :=
  {| StringToNumber := fun _ => NaN;
     ToString := fun _ => lit "?";
     Date_toLocaleString := fun _ => lit "?";
     not_a_function := lit "trim is not a function";
     property_of_null := lit "Cannot read properties of null";
     redirect_error := fun _ => Some {| message := lit "Invalid URL" |};
     uncaught_response := fun _ => (500, lit "Internal Server Error") |}.

(** A provider that rejects every call. *)
Definition rejecting_api (msg : jsstring) : CozeApi :=
  {| getPKCEAuthenticationUrl := fun _ _ _ => Throw {| message := msg |};
     getPKCEOAuthToken := fun _ _ _ _ _ => Throw {| message := msg |};
     refreshOAuthToken := fun _ _ _ => Throw {| message := msg |} |}.

(** A provider that hands out the verifier ["v1"] and answers every
    exchange with [t]. *)
Definition answering_api (t : OAuthToken) : CozeApi :=
  {| getPKCEAuthenticationUrl := fun _ _ _ =>
       Normal {| auth_codeVerifier := VStr (lit "v1");
                 auth_url := VStr (lit "https://provider/authorize") |};
     getPKCEOAuthToken := fun _ _ _ _ _ => Normal t;
     refreshOAuthToken := fun _ _ _ => Normal t |}.

Definition sample_token : OAuthToken :=
  {| tok_access_token := VStr (lit "at1");
     tok_refresh_token := VStr (lit "rt1");
     tok_expires_in := VNum (Fin 900) |}.

(** An answer of the provider that names no lifetime. *)
Definition token_without_lifetime : OAuthToken :=
  {| tok_access_token := VStr (lit "at2");
     tok_refresh_token := VStr (lit "rt2");
     tok_expires_in := VUndefined |}.

Definition sample_config : Config :=
  {| client_type := VStr (lit "pkce");
     client_id := VStr (lit "client");
     coze_www_base := VStr (lit "https://www.coze.com");
     coze_api_base := VStr (lit "https://api.coze.com");
     websdk_pat := VUndefined;
     pat := VUndefined |}.

Definition config_with_pat (websdk p : jsval) : Config :=
  {| client_type := client_type sample_config;
     client_id := client_id sample_config;
     coze_www_base := coze_www_base sample_config;
     coze_api_base := coze_api_base sample_config;
     websdk_pat := websdk;
     pat := p |}.

Definition no_env : Env := {| COZE_PAT := None |}.

Definition code_query (code : string) : jsval :=
  VObj [ (lit "code", VStr (lit code)) ].

(** The session after [/login]: a verifier, no record. *)
Definition pending_session : Session :=
  {| codeVerifier := VStr (lit "v1"); oauth := None |}.

(** The session after [/login] and a successful [/callback] at instant
    1000. *)
Definition authenticated_session : Session :=
  {| codeVerifier := VStr (lit "v1");
     oauth := Some (new_record (rt := sample_runtime) 1000 sample_token) |}.

(** ** Start-up: the configuration file *)

Definition requiredFields : list jsstring :=
  [ lit "client_type"; lit "client_id"; lit "coze_www_base";
    lit "coze_api_base" ].

(** [Array.isArray(v) && v.length === 0] *)
Definition empty_array (v : jsval) : bool :=
  match v with
  | VArr [] => true
  | _ => false
  end.

(** [typeof v === "string" && !v.trim()] *)
Definition blank_string (v : jsval) : bool :=
  match v with
  | VStr s => negb (truthy (VStr (trim s)))
  | _ => false
  end.

(** The body of the loop over [requiredFields] (index.js, lines 38-46). *)
Definition check_field (config : jsval) (field : jsstring) : completion unit :=
  if negb (truthy (get_prop config field)) then
    Throw {| message :=
               lit "Configuration file missing required field: " ++ field |}
  else if empty_array (get_prop config field) then
    Throw {| message :=
               lit "Configuration field " ++ field
               ++ lit " cannot be an empty array" |}
  else if blank_string (get_prop config field) then
    Throw {| message :=
               lit "Configuration field " ++ field
               ++ lit " cannot be an empty string" |}
  else Normal tt.

Fixpoint check_fields (config : jsval) (fields : list jsstring)
  : completion unit :=
  match fields with
  | [] => Normal tt
  | field :: rest =>
      match check_field config field with
      | Normal _ => check_fields config rest
      | Throw e => Throw e
      end
  end.

Section LoadConfig.
Context {rt : JSRuntime}.
(** [JSON.parse]; it never returns [undefined]. *)
Variable JSON_parse : jsstring -> completion jsval.

(** [loadConfig] (index.js, lines 18-50).  [file] is the text of
    [coze_oauth_config.json], [None] when the file does not exist.  Reading
    a property of [null] (the JSON text [null]) is a TypeError. *)
Definition loadConfig (file : option jsstring) : completion jsval :=
  match file with
  | None =>
      Throw {| message :=
        lit "Configuration file coze_oauth_config.json does not exist!" |}
  | Some text =>
      match JSON_parse text with
      | Throw e => Throw e
      | Normal VNull => Throw {| message := property_of_null |}
      | Normal config =>
          match check_fields config requiredFields with
          | Normal _ => Normal config
          | Throw e => Throw e
          end
      end
  end.

End LoadConfig.

(** A value [loadConfig] lets pass for a required field: truthy, not the
    empty array, and not a string of white space. *)
Definition acceptable (v : jsval) : Prop :=
  truthy v = true
  /\ v <> VArr []
  /\ (forall w, v = VStr w -> forallb isWhiteSpace w = false).

(** The properties of the loaded configuration that the handlers read. *)
Definition config_record (config : jsval) : Config :=
  {| client_type := get_prop config (lit "client_type");
     client_id := get_prop config (lit "client_id");
     coze_www_base := get_prop config (lit "coze_www_base");
     coze_api_base := get_prop config (lit "coze_api_base");
     websdk_pat := get_prop config (lit "websdk_pat");
     pat := get_prop config (lit "pat") |}.

(** ** Provider calls and sequences of requests *)

Definition call_baseURL (c : ApiCall) : jsval :=
  match c with
  | GetPKCEAuthenticationUrl baseURL _ _ => baseURL
  | GetPKCEOAuthToken baseURL _ _ _ _ => baseURL
  | RefreshOAuthToken baseURL _ _ => baseURL
  end.

Definition call_clientId (c : ApiCall) : jsval :=
  match c with
  | GetPKCEAuthenticationUrl _ clientId _ => clientId
  | GetPKCEOAuthToken _ clientId _ _ _ => clientId
  | RefreshOAuthToken _ clientId _ => clientId
  end.

(** The redirect target a call names; a refresh names none. *)
Definition call_redirectUrl (c : ApiCall) : option jsval :=
  match c with
  | GetPKCEAuthenticationUrl _ _ redirectUrl => Some redirectUrl
  | GetPKCEOAuthToken _ _ _ redirectUrl _ => Some redirectUrl
  | RefreshOAuthToken _ _ _ => None
  end.

(** A provider none of whose token exchanges resolves. *)
Definition never_issues (api : CozeApi) : Prop :=
  (forall baseURL clientId code redirectUrl verifier,
     exists e,
       getPKCEOAuthToken baseURL clientId code redirectUrl verifier = Throw e)
  /\ (forall baseURL clientId refreshToken,
        exists e, refreshOAuthToken baseURL clientId refreshToken = Throw e).

Section Sequences.
Context {rt : JSRuntime}.
Variable config : Config.
Variable env : Env.

(** The session after a sequence of requests of one browser, each with the
    provider and the clock of its moment. *)
Fixpoint run (steps : list (CozeApi * Z * Request)) (s : Session) : Session :=
  match steps with
  | [] => s
  | (api, now, r) :: rest =>
      run rest (next_session (handle (route config env api now r) s))
  end.

End Sequences.

(** ** Templates *)

Fixpoint starts_with (p s : jsstring) : bool :=
  match p, s with
  | [], _ => true
  | _ :: _, [] => false
  | a :: p', b :: s' => (a =? b)%N && starts_with p' s'
  end.

(** GetSubstitution of ECMAScript for a match without capture groups: in
    the replacement text [$$] stands for a dollar sign, [$&] for the
    matched text, [$`] for the text before the match and [$'] for the text
    after it; a [$] followed by anything else stands for itself. *)
Fixpoint GetSubstitution (matched before after replacement : jsstring)
  : jsstring :=
  match replacement with
  | [] => []
  | c :: r =>
      if (c =? 36)%N then
        match r with
        | [] => [c]
        | d :: r' =>
            if (d =? 36)%N then
              36%N :: GetSubstitution matched before after r'
            else if (d =? 38)%N then
              matched ++ GetSubstitution matched before after r'
            else if (d =? 96)%N then
              before ++ GetSubstitution matched before after r'
            else if (d =? 39)%N then
              after ++ GetSubstitution matched before after r'
            else c :: GetSubstitution matched before after r
        end
      else c :: GetSubstitution matched before after r
  end.

(** The scan of [subject.replace(/pattern/g, replacement)] for a pattern
    that matches exactly one non-empty text: [passed] is the text already
    scanned (reversed), [skip] the number of characters still inside the
    last match. *)
Fixpoint replace_scan (pattern replacement : jsstring)
    (passed rest : jsstring) (skip : nat) : jsstring :=
  match rest with
  | [] => []
  | c :: r =>
      match skip with
      | S k => replace_scan pattern replacement (c :: passed) r k
      | O =>
          if starts_with pattern rest then
            GetSubstitution pattern (rev passed)
              (skipn (List.length pattern) rest) replacement
            ++ replace_scan pattern replacement (c :: passed) r
                 (List.length pattern - 1)
          else c :: replace_scan pattern replacement (c :: passed) r 0
      end
  end.

Definition String_replace (pattern replacement subject : jsstring)
  : jsstring :=
  replace_scan pattern replacement [] subject 0.

(** The text the regular expression [new RegExp(`{{${key}}}`, "g")]
    matches.  The keys index.js passes ([error], [token_type],
    [access_token], [refresh_token], [expires_in]) are made of letters and
    [_]; for such a key the expression has no operator and matches this
    text and nothing else. *)
Definition placeholder (key : jsstring) : jsstring :=
  lit "{{" ++ key ++ lit "}}".

Definition word_char (c : N) : bool :=
  ((65 <=? c) && (c <=? 90) || (97 <=? c) && (c <=? 122) || (c =? 95))%N.

Definition word_key (key : jsstring) : bool := forallb word_char key.

Section Templates.
Context {rt : JSRuntime}.
(** [fs.readFileSync(path, "utf8")]: the text of the file, or the error
    thrown. *)
Variable readFileSync : jsstring -> completion jsstring.

(** The replacement [replace] makes of a value that is no function: its
    string form. *)
Definition replacement_of (v : jsval) : jsstring :=
  match v with
  | VStr s => s
  | _ => ToString v
  end.

(** [renderTemplate] (index.js, lines 53-68) as the text it returns:
    one global replacement per key, in the order of [Object.keys]; a read
    error is logged and thrown again. *)
Definition renderTemplate_text (templatePath : jsstring)
    (variables : list (jsstring * jsval)) : completion jsstring :=
  match readFileSync templatePath with
  | Throw error => Throw error
  | Normal template =>
      Normal
        (fold_left
           (fun template key =>
              String_replace (placeholder key)
                (replacement_of (lookup_prop variables key)) template)
           (List.map fst variables) template)
  end.

End Templates.

(** A template seen as pieces: literal text and placeholders. *)
Inductive piece : Type :=
| Text (s : jsstring)
| Hole (key : jsstring).

Definition piece_text (p : piece) : jsstring :=
  match p with
  | Text s => s
  | Hole key => placeholder key
  end.

Definition flatten (pieces : list piece) : jsstring :=
  List.concat (List.map piece_text pieces).

(** Text in which every opening brace is followed by a character that is
    not an opening brace: it neither contains ["{{"] nor ends with ["{"]. *)
Fixpoint text_ok (s : jsstring) : bool :=
  match s with
  | [] => true
  | c :: r =>
      if (c =? 123)%N then
        match r with
        | [] => false
        | d :: _ => negb (d =? 123)%N && text_ok r
        end
      else text_ok r
  end.

Definition dollar_free (s : jsstring) : bool :=
  forallb (fun c => negb (c =? 36)%N) s.

Definition piece_ok (p : piece) : bool :=
  match p with
  | Text s => text_ok s
  | Hole key => word_key key
  end.

Section Fill.
Context {rt : JSRuntime}.

(** A placeholder whose key is among [keys] becomes the text of its
    value; everything else stays. *)
Definition fill_from (keys : list jsstring)
    (variables : list (jsstring * jsval)) (p : piece) : piece :=
  match p with
  | Text s => Text s
  | Hole key =>
      if existsb (jsstring_eqb key) keys
      then Text (replacement_of (lookup_prop variables key))
      else Hole key
  end.

Definition fill (variables : list (jsstring * jsval)) : piece -> piece :=
  fill_from (List.map fst variables) variables.

(** One pass: the placeholders of one key become [replacement]. *)
Definition fill_one (key replacement : jsstring) (p : piece) : piece :=
  match p with
  | Text s => Text s
  | Hole key' => if jsstring_eqb key' key then Text replacement else Hole key'
  end.

End Fill.

(** ** [/callback] with the pages rendered

    The handler of [/callback] once more, this time reading the template
    files: [renderTemplate] may throw, and where it is called decides what
    becomes of the exception. *)

Section Rendering.
Context {rt : JSRuntime} {api : CozeApi}.
Variable readFileSync : jsstring -> completion jsstring.
Variable config : Config.
Variable now : Z.

(** [renderTemplate(path.join(__dirname, "websites", template), variables)];
    files are named relative to [__dirname]. *)
Definition render (template : string) (variables : list (jsstring * jsval))
  : M Body :=
  fun c =>
    match renderTemplate_text readFileSync (lit "websites/" ++ lit template)
            variables with
    | Normal text => (Normal (BValue (VStr text)), c)
    | Throw error => (Throw error, c)
    end.

(** [router.get("/callback", ...)] (index.js, lines 199-257). *)
Definition callback_rendering (query : jsval) : M unit :=
  let code := get_prop query (lit "code") in
  codeVerifier <- session_codeVerifier ;;
  if negb (truthy code) then
    assign_status 400 ;;
    page <- render "error.html"
              [ (lit "error",
                 VStr (lit "Authorization failed: No authorization code received")) ] ;;
    assign_body page
  else if negb (truthy codeVerifier) then
    assign_status 400 ;;
    page <- render "error.html"
              [ (lit "error",
                 VStr (lit "Authorization failed: No code verifier found")) ] ;;
    assign_body page
  else
    try_catch
      (oauthToken <- await
                       (GetPKCEOAuthToken (coze_api_base config)
                          (client_id config) code REDIRECT_URI codeVerifier)
                       (getPKCEOAuthToken (coze_api_base config)
                          (client_id config) code REDIRECT_URI codeVerifier) ;;
       assign_oauth (new_record now oauthToken) ;;
       page <- render "callback.html"
                 [ (lit "token_type", VStr (lit "pkce"));
                   (lit "access_token", tok_access_token oauthToken);
                   (lit "refresh_token", tok_refresh_token oauthToken);
                   (lit "expires_in", expires_text oauthToken) ] ;;
       assign_body page)
      (fun error =>
         assign_status 500 ;;
         page <- render "error.html"
                   [ (lit "error",
                      VStr (lit "Failed to get access token: "
                            ++ message error)) ] ;;
         assign_body page).

(** A body with its page rendered; [None] when the template cannot be
    read. *)
Definition rendered (b : Body) : option Body :=
  match b with
  | BRendered template variables =>
      match renderTemplate_text readFileSync (lit "websites/" ++ template)
              variables with
      | Normal text => Some (BValue (VStr text))
      | Throw _ => None
      end
  | _ => Some b
  end.

End Rendering.

(** ** The image middleware *)

(** Canonical form of a code unit under the [i] flag, as far as matching
    ASCII letters goes: a code unit above 127 never matches one. *)
Definition ascii_upper (c : N) : N :=
  if ((97 <=? c) && (c <=? 122))%N then (c - 32)%N else c.

(** Matches the literal [p], letter case ignored, at the start of [s] and
    returns what follows it. *)
Fixpoint strip_ci (p s : jsstring) : option jsstring :=
  match p with
  | [] => Some s
  | a :: p' =>
      match s with
      | [] => None
      | b :: s' =>
          if (ascii_upper a =? ascii_upper b)%N then strip_ci p' s' else None
      end
  end.

Definition is_digit (c : N) : bool := ((48 <=? c) && (c <=? 57))%N.

(** What follows the digits [\d+] takes: the quantifier is greedy, and
    giving a digit back cannot help since a dot must follow. *)
Fixpoint drop_digits (s : jsstring) : jsstring :=
  match s with
  | [] => []
  | c :: r => if is_digit c then drop_digits r else s
  end.

(** [\.png$] *)
Definition ends_png (s : jsstring) : bool :=
  match strip_ci (lit ".png") s with
  | Some [] => true
  | _ => false
  end.

(** [/^\/image(_\d+)?\.png$/i.test(path)] (index.js, line 133): with the
    group, or without it. *)
Definition image_path (path : jsstring) : bool :=
  match strip_ci (lit "/image") path with
  | None => false
  | Some rest =>
      match rest with
      | c :: d :: r =>
          ((c =? 95)%N && is_digit d && ends_png (drop_digits r))
          || ends_png rest
      | _ => ends_png rest
      end
  end.

(** [path.replace(/^\//, "")] *)
Definition strip_slash (path : jsstring) : jsstring :=
  match path with
  | c :: r => if (c =? 47)%N then r else path
  | [] => []
  end.

(** What a middleware does with a request: stream a file, given by the
    path segments joined to [__dirname]; answer 404; or call [next].  The
    content type set from the file extension is left out. *)
Inductive Served : Type :=
| SendFile (filePath : list jsstring)
| NotFound
| Next.

(** The middleware for root-level images (index.js, lines 131-161);
    [existsSync] tells which files exist under [__dirname]. *)
Definition image_middleware (existsSync : list jsstring -> bool)
    (path : jsstring) : Served :=
  if image_path path then
    if existsSync [ strip_slash path ] then SendFile [ strip_slash path ]
    else NotFound
  else if jsstring_eqb path (lit "/favicon.ico") then
    if existsSync [ lit "websites"; lit "assets"; lit "coze.png" ] then
      SendFile [ lit "websites"; lit "assets"; lit "coze.png" ]
    else Next
  else Next.

(** A file system holding [websites/error.html] and nothing else. *)
Definition only_error_page (text : jsstring)
  : jsstring -> completion jsstring :=
  fun path =>
    if jsstring_eqb path (lit "websites/error.html") then Normal text
    else Throw {| message := lit "ENOENT: no such file or directory" |}.

(** A file system in which every file reads as [text]. *)
Definition reads_as (text : jsstring) : jsstring -> completion jsstring :=
  fun _ => Normal text.

Definition parse_to (config : jsval) : jsstring -> completion jsval :=
  fun _ => Normal config.

Definition sample_config_json : jsval :=
  VObj [ (lit "client_type", VStr (lit "pkce"));
         (lit "client_id", VStr (lit "client"));
         (lit "coze_www_base", VStr (lit "https://www.coze.com"));
         (lit "coze_api_base", VStr (lit "https://api.coze.com")) ].

(** * Properties *)

(** ** Strings *)

Lemma trimStart_whitespace (s : jsstring) :
  forallb isWhiteSpace s = true -> trimStart s = [].
Proof.
  induction s as [|c r IH]; simpl; [reflexivity|].
  intros H. apply andb_prop in H. destruct H as [Hc Hr].
  rewrite Hc. exact (IH Hr).
Qed.

Lemma trim_whitespace (s : jsstring) :
  forallb isWhiteSpace s = true -> trim s = [].
Proof.
  intros H. unfold trim, trimEnd.
  rewrite (trimStart_whitespace s H). reflexivity.
Qed.

Lemma truthy_VStr (s : jsstring) : truthy (VStr s) = true <-> s <> [].
Proof.
  destruct s; simpl; split; congruence.
Qed.

(** ** What each handler leaves behind

    One equation per handler: the context after the request, by cases on
    the tests the handler makes. *)

Section Runs.
Context {rt : JSRuntime}.
Variable config : Config.
Variable env : Env.

Lemma handle_callback_no_code (api : CozeApi) now query s :
  truthy (get_prop query (lit "code")) = false ->
  handle (callback config now query) s =
  {| session := Some s; status := Some 400;
     body := Some (renderTemplate "error.html"
       [ (lit "error",
          VStr (lit "Authorization failed: No authorization code received")) ]);
     trace := [] |}.
Proof.
  intros H. unfold handle, callback, bind, session_codeVerifier, with_session,
    ctx_session, start, ret; simpl.
  rewrite H. reflexivity.
Qed.

Lemma handle_callback_no_verifier (api : CozeApi) now query s :
  truthy (get_prop query (lit "code")) = true ->
  truthy (codeVerifier s) = false ->
  handle (callback config now query) s =
  {| session := Some s; status := Some 400;
     body := Some (renderTemplate "error.html"
       [ (lit "error",
          VStr (lit "Authorization failed: No code verifier found")) ]);
     trace := [] |}.
Proof.
  intros Hc Hv. unfold handle, callback, bind, session_codeVerifier,
    with_session, ctx_session, start, ret; simpl.
  rewrite Hc, Hv. reflexivity.
Qed.

Lemma handle_callback_exchange (api : CozeApi) now query s :
  truthy (get_prop query (lit "code")) = true ->
  truthy (codeVerifier s) = true ->
  handle (callback config now query) s =
  match getPKCEOAuthToken (coze_api_base config) (client_id config)
          (get_prop query (lit "code")) REDIRECT_URI (codeVerifier s) with
  | Normal oauthToken =>
      {| session := Some {| codeVerifier := codeVerifier s;
                            oauth := Some (new_record now oauthToken) |};
         status := None;
         body := Some (renderTemplate "callback.html"
           [ (lit "token_type", VStr (lit "pkce"));
             (lit "access_token", tok_access_token oauthToken);
             (lit "refresh_token", tok_refresh_token oauthToken);
             (lit "expires_in", expires_text oauthToken) ]);
         trace := [ GetPKCEOAuthToken (coze_api_base config) (client_id config)
                      (get_prop query (lit "code")) REDIRECT_URI
                      (codeVerifier s) ] |}
  | Throw error =>
      {| session := Some s; status := Some 500;
         body := Some (renderTemplate "error.html"
           [ (lit "error",
              VStr (lit "Failed to get access token: " ++ message error)) ]);
         trace := [ GetPKCEOAuthToken (coze_api_base config) (client_id config)
                      (get_prop query (lit "code")) REDIRECT_URI
                      (codeVerifier s) ] |}
  end.
Proof.
  intros Hc Hv. unfold handle, callback, bind, session_codeVerifier,
    with_session, ctx_session, start, ret; simpl.
  rewrite Hc, Hv; simpl.
  unfold try_catch, bind, await; simpl.
  destruct (getPKCEOAuthToken _ _ _ _ _); reflexivity.
Qed.

Lemma handle_refresh_no_token (api : CozeApi) now request_body s :
  truthy (resolve_refresh_token request_body (oauth s)) = false ->
  handle (refresh config now request_body) s =
  {| session := Some s; status := Some 401;
     body := Some (BValue
       (err (lit "No refresh token available. Please re-login.")));
     trace := [] |}.
Proof.
  intros H. unfold handle, refresh, try_catch, bind, session_oauth,
    ctx_session, start, ret; simpl.
  rewrite H. reflexivity.
Qed.

Lemma handle_refresh_exchange (api : CozeApi) now request_body s :
  truthy (resolve_refresh_token request_body (oauth s)) = true ->
  handle (refresh config now request_body) s =
  match refreshOAuthToken (coze_api_base config) (client_id config)
          (resolve_refresh_token request_body (oauth s)) with
  | Normal oauthToken =>
      {| session := Some {| codeVerifier := codeVerifier s;
                            oauth := Some (new_record now oauthToken) |};
         status := None;
         body := Some (BValue
           (VObj [ (lit "token_type", VStr (lit "pkce"));
                   (lit "access_token", tok_access_token oauthToken);
                   (lit "refresh_token", tok_refresh_token oauthToken);
                   (lit "expires_in", expires_text oauthToken) ]));
         trace := [ RefreshOAuthToken (coze_api_base config) (client_id config)
                      (resolve_refresh_token request_body (oauth s)) ] |}
  | Throw error =>
      {| session := Some s; status := Some 500;
         body := Some (BValue
           (err (lit "Failed to refresh token: " ++ message error)));
         trace := [ RefreshOAuthToken (coze_api_base config) (client_id config)
                      (resolve_refresh_token request_body (oauth s)) ] |}
  end.
Proof.
  intros H. unfold handle, refresh, try_catch, bind, session_oauth,
    ctx_session, start, ret; simpl.
  rewrite H; simpl. unfold await; simpl.
  destruct (refreshOAuthToken _ _ _); reflexivity.
Qed.

Lemma handle_login (api : CozeApi) s :
  handle (login config) s =
  match getPKCEAuthenticationUrl (coze_api_base config) (client_id config)
          REDIRECT_URI with
  | Normal r =>
      match redirect_error (auth_url r) with
      | None =>
          {| session := Some {| codeVerifier := auth_codeVerifier r;
                                oauth := oauth s |};
             status := Some 302;
             body := Some (BRedirect (auth_url r));
             trace := [ GetPKCEAuthenticationUrl (coze_api_base config)
                          (client_id config) REDIRECT_URI ] |}
      | Some error =>
          {| session := Some {| codeVerifier := auth_codeVerifier r;
                                oauth := oauth s |};
             status := Some 500;
             body := Some (renderTemplate "error.html"
               [ (lit "error",
                  VStr (lit "Failed to generate authorization URL: "
                        ++ message error)) ]);
             trace := [ GetPKCEAuthenticationUrl (coze_api_base config)
                          (client_id config) REDIRECT_URI ] |}
      end
  | Throw error =>
      {| session := Some s; status := Some 500;
         body := Some (renderTemplate "error.html"
           [ (lit "error",
              VStr (lit "Failed to generate authorization URL: "
                    ++ message error)) ]);
         trace := [ GetPKCEAuthenticationUrl (coze_api_base config)
                      (client_id config) REDIRECT_URI ] |}
  end.
Proof.
  unfold handle, login, redirect, try_catch, bind, await, start; simpl.
  destruct (getPKCEAuthenticationUrl _ _ _) as [r|error]; [|reflexivity].
  destruct (redirect_error (auth_url r)); reflexivity.
Qed.

Lemma handle_token_session s o :
  oauth s = Some o ->
  truthy (access_token o) = true ->
  handle (token config env) s =
  {| session := Some s; status := None;
     body := Some (BValue
       (VObj [ (lit "token_type", js_or (token_type o) (VStr (lit "pkce")));
               (lit "access_token", access_token o) ]));
     trace := [] |}.
Proof.
  intros Ho Ha. unfold handle, token, try_catch, bind, session_oauth,
    ctx_session, start, ret; simpl.
  rewrite Ho, Ha. reflexivity.
Qed.

Lemma handle_token_fallback s raw :
  holds_token s = false ->
  pat_source config env = VStr raw ->
  handle (token config env) s =
  if truthy (VStr (trim raw)) then
    {| session := Some s; status := None;
       body := Some (BValue
         (VObj [ (lit "token_type", VStr (lit "pat"));
                 (lit "access_token", VStr (trim raw)) ]));
       trace := [] |}
  else
    {| session := Some s; status := Some 401;
       body := Some (BValue
         (err (lit "Public PAT not configured. Set env COZE_PAT or websdk_pat in coze_oauth_config.json.")));
       trace := [] |}.
Proof.
  intros Hs Hp. unfold holds_token in Hs.
  unfold handle, token, try_catch, bind, session_oauth, ctx_session, start,
    ret; simpl.
  rewrite Hp.
  destruct (oauth s) as [o|]; [rewrite Hs|]; simpl;
    destruct (trim raw); reflexivity.
Qed.

Lemma handle_token_type_error s :
  holds_token s = false ->
  (forall raw, pat_source config env <> VStr raw) ->
  handle (token config env) s =
  {| session := Some s; status := Some 500;
     body := Some (BValue
       (err (lit "Failed to provide token: " ++ not_a_function)));
     trace := [] |}.
Proof.
  intros Hs Hn. unfold holds_token in Hs.
  unfold handle, token, session_oauth, String_trim, try_catch, bind,
    ctx_session, start, ret.
  destruct s as [v [o|]]; cbn [session oauth] in Hs |- *; [rewrite Hs|];
    (destruct (pat_source config env) as [| |b|x|raw|items|props];
     try reflexivity; exfalso; exact (Hn raw eq_refl)).
Qed.

Lemma handle_logout s :
  handle logout s =
  {| session := None; status := Some 200;
     body := Some (BValue (VObj [ (lit "ok", VBool true) ]));
     trace := [] |}.
Proof. reflexivity. Qed.

End Runs.

(** ** The session invariant *)

Section Invariant.
Context {rt : JSRuntime}.
Variable config : Config.
Variable env : Env.

Lemma handle_token_frame (s : Session) :
  session (handle (token config env) s) = Some s
  /\ trace (handle (token config env) s) = [].
Proof.
  unfold handle, token, session_oauth, String_trim, try_catch, bind,
    ctx_session, start, ret.
  destruct s as [v [o|]]; cbn [session oauth];
    [destruct (truthy (access_token o)); [split; reflexivity|]|];
    (destruct (pat_source config env) as [| |b|x|raw|items|props];
     try (split; reflexivity);
     cbn; destruct (trim raw); split; reflexivity).
Qed.

Lemma pkce_typed_empty : pkce_typed empty_session.
Proof. intros o H. discriminate H. Qed.

Lemma pkce_typed_step (api : CozeApi) now (r : Request) (s : Session) :
  pkce_typed s ->
  pkce_typed (next_session (handle (route config env api now r) s)).
Proof.
  intros Hs. destruct r as [|query|request_body| |]; cbn [route].
  - rewrite handle_login.
    destruct (getPKCEAuthenticationUrl _ _ _) as [a|e];
      [destruct (redirect_error (auth_url a))|];
      cbn [next_session session oauth]; exact Hs.
  - destruct (truthy (get_prop query (lit "code"))) eqn:Hc.
    + destruct (truthy (codeVerifier s)) eqn:Hv.
      * rewrite (handle_callback_exchange config api now query s Hc Hv).
        destruct (getPKCEOAuthToken _ _ _ _ _); cbn; [|exact Hs].
        intros o Ho. injection Ho as <-. reflexivity.
      * rewrite (handle_callback_no_verifier config api now query s Hc Hv).
        exact Hs.
    + rewrite (handle_callback_no_code config api now query s Hc). exact Hs.
  - destruct (truthy (resolve_refresh_token request_body (oauth s))) eqn:Ht.
    + rewrite (handle_refresh_exchange config api now request_body s Ht).
      destruct (refreshOAuthToken _ _ _); cbn; [|exact Hs].
      intros o Ho. injection Ho as <-. reflexivity.
    + rewrite (handle_refresh_no_token config api now request_body s Ht).
      exact Hs.
  - unfold next_session.
    rewrite (proj1 (handle_token_frame s)). exact Hs.
  - rewrite handle_logout. exact pkce_typed_empty.
Qed.

Lemma reachable_pkce_typed (s : Session) :
  reachable config env s -> pkce_typed s.
Proof.
  induction 1 as [|api now r s _ IH].
  - exact pkce_typed_empty.
  - apply pkce_typed_step. exact IH.
Qed.

(** The fallback chain picks the first truthy source. *)
Lemma pat_source_precedence :
  (truthy (env_value (COZE_PAT env)) = true ->
   pat_source config env = env_value (COZE_PAT env))
  /\ (truthy (env_value (COZE_PAT env)) = false ->
      truthy (websdk_pat config) = true ->
      pat_source config env = websdk_pat config)
  /\ (truthy (env_value (COZE_PAT env)) = false ->
      truthy (websdk_pat config) = false ->
      truthy (pat config) = true ->
      pat_source config env = pat config)
  /\ (truthy (env_value (COZE_PAT env)) = false ->
      truthy (websdk_pat config) = false ->
      truthy (pat config) = false ->
      pat_source config env = VStr []).
Proof.
  unfold pat_source, js_or.
  repeat split; intros;
    repeat (match goal with
            | H : truthy ?x = _ |- context [truthy ?x] => rewrite H
            end; cbv iota);
    reflexivity.
Qed.

End Invariant.

(** ** Sample sessions are reachable *)

Lemma reachable_pending_session (config : Config) (env : Env) :
  reachable (rt := sample_runtime) config env pending_session.
Proof.
  exact (reachable_step config env (answering_api sample_token) 0 GET_login
           empty_session (reachable_empty config env)).
Qed.

Lemma reachable_authenticated_session (config : Config) (env : Env) :
  reachable (rt := sample_runtime) config env authenticated_session.
Proof.
  exact (reachable_step config env (answering_api sample_token) 1000
           (GET_callback (code_query "c")) pending_session
           (reachable_pending_session config env)).
Qed.

(** ** GET /token *)

(** C1, as the code has it.  Resolving the current token is
    first-match-wins.  On every session the server can hand out: a record
    with a truthy [access_token] is answered with that token and
    [token_type] ["pkce"]; otherwise the fallback, the first truthy one of
    [COZE_PAT], [websdk_pat], [pat], decides: a string whose trimmed text
    is not empty is answered trimmed with [token_type] ["pat"]; a string
    that is empty after trimming (nothing configured, or white space) is
    answered 401 with the not-configured message; a value that is not a
    string is answered 500, [trim] being no method of it. *)
Theorem token_resolution_priority {rt : JSRuntime}
    (config : Config) (env : Env) (s : Session) :
  reachable config env s ->
  (forall o, oauth s = Some o -> truthy (access_token o) = true ->
     response_status (handle (token config env) s) = 200
     /\ body (handle (token config env) s) =
        Some (BValue (VObj [ (lit "token_type", VStr (lit "pkce"));
                             (lit "access_token", access_token o) ])))
  /\ (forall raw, holds_token s = false ->
        pat_source config env = VStr raw -> trim raw <> [] ->
        response_status (handle (token config env) s) = 200
        /\ body (handle (token config env) s) =
           Some (BValue (VObj [ (lit "token_type", VStr (lit "pat"));
                                (lit "access_token", VStr (trim raw)) ])))
  /\ (forall raw, holds_token s = false ->
        pat_source config env = VStr raw -> trim raw = [] ->
        response_status (handle (token config env) s) = 401
        /\ body (handle (token config env) s) =
           Some (BValue (err (lit "Public PAT not configured. Set env COZE_PAT or websdk_pat in coze_oauth_config.json."))))
  /\ (truthy (env_value (COZE_PAT env)) = true ->
      pat_source config env = env_value (COZE_PAT env))
  /\ (truthy (env_value (COZE_PAT env)) = false ->
      truthy (websdk_pat config) = true ->
      pat_source config env = websdk_pat config)
  /\ (truthy (env_value (COZE_PAT env)) = false ->
      truthy (websdk_pat config) = false ->
      truthy (pat config) = true ->
      pat_source config env = pat config)
  /\ (truthy (env_value (COZE_PAT env)) = false ->
      truthy (websdk_pat config) = false ->
      truthy (pat config) = false ->
      pat_source config env = VStr [])
  /\ (holds_token s = false ->
      (forall raw, pat_source config env <> VStr raw) ->
      response_status (handle (token config env) s) = 500
      /\ body (handle (token config env) s) =
         Some (BValue (VObj
           [ (lit "error",
              VStr (lit "Failed to provide token: " ++ not_a_function)) ]))).
Proof.
  intros Hr.
  pose proof (reachable_pkce_typed config env s Hr) as Hty.
  destruct (pat_source_precedence config env) as (P1 & P2 & P3 & P4).
  split; [|split; [|split; [|split; [|split; [|split; [|split]]]]]];
    try assumption.
  - intros o Ho Ha.
    rewrite (handle_token_session config env s o Ho Ha).
    cbn [body response_status status]. rewrite (Hty o Ho).
    split; reflexivity.
  - intros raw Hs Hp Ht.
    rewrite (handle_token_fallback config env s raw Hs Hp).
    apply truthy_VStr in Ht. rewrite Ht. split; reflexivity.
  - intros raw Hs Hp Ht.
    rewrite (handle_token_fallback config env s raw Hs Hp).
    rewrite Ht. split; reflexivity.
  - intros Hs Hn. rewrite (handle_token_type_error config env s Hs Hn).
    split; reflexivity.
Qed.

Lemma token_resolution_priority_witness :
  reachable (rt := sample_runtime) sample_config no_env authenticated_session
  /\ body (handle (rt := sample_runtime)
             (token (rt := sample_runtime) sample_config no_env)
             authenticated_session) =
     Some (BValue (VObj [ (lit "token_type", VStr (lit "pkce"));
                          (lit "access_token", VStr (lit "at1")) ]))
  /\ body (handle (rt := sample_runtime)
             (token (rt := sample_runtime)
                (config_with_pat (VStr (lit " shared ")) VUndefined)
                no_env) pending_session) =
     Some (BValue (VObj [ (lit "token_type", VStr (lit "pat"));
                          (lit "access_token", VStr (lit "shared")) ]))
  /\ response_status
       (handle (rt := sample_runtime)
          (token (rt := sample_runtime) sample_config no_env)
          pending_session) = 401
  /\ pat_source (config_with_pat (VStr (lit "from file")) VUndefined)
       {| COZE_PAT := Some (lit "from env") |} = VStr (lit "from env")
  /\ response_status
       (handle (rt := sample_runtime)
          (token (rt := sample_runtime)
             (config_with_pat (VNum (Fin 5)) VUndefined) no_env)
          pending_session) = 500.
Proof.
  split; [exact (reachable_authenticated_session sample_config no_env)|].
  split; [|split; [|split; [|split]]].
  - exact (proj2 (proj1
      (token_resolution_priority (rt := sample_runtime) sample_config no_env
         authenticated_session
         (reachable_authenticated_session sample_config no_env))
      _ eq_refl eq_refl)).
  - refine (proj2 (proj1 (proj2
      (token_resolution_priority (rt := sample_runtime)
         (config_with_pat (VStr (lit " shared ")) VUndefined) no_env
         pending_session (reachable_pending_session _ no_env)))
      (lit " shared ") eq_refl eq_refl _)).
    vm_compute. discriminate.
  - exact (proj1 (proj1 (proj2 (proj2
      (token_resolution_priority (rt := sample_runtime) sample_config no_env
         pending_session (reachable_pending_session _ no_env))))
      [] eq_refl eq_refl eq_refl)).
  - exact (proj1 (proj2 (proj2 (proj2
      (token_resolution_priority (rt := sample_runtime)
         (config_with_pat (VStr (lit "from file")) VUndefined)
         {| COZE_PAT := Some (lit "from env") |}
         pending_session (reachable_pending_session _ _)))))
      eq_refl).
  - refine (proj1 (proj2 (proj2 (proj2 (proj2 (proj2 (proj2 (proj2
      (token_resolution_priority (rt := sample_runtime)
         (config_with_pat (VNum (Fin 5)) VUndefined) no_env
         pending_session (reachable_pending_session _ no_env))))))))
      eq_refl _)).
    intros raw. vm_compute. discriminate.
Defined.

(** C1 as the specification words it fails: with a fallback configured
    that is not a string (here the number 5 under [websdk_pat], which
    [loadConfig] lets pass), a session without a token is answered
    neither with the fallback nor with 401. *)
Lemma token_resolution_priority_counterexample :
  reachable (rt := sample_runtime)
    (config_with_pat (VNum (Fin 5)) VUndefined) no_env empty_session
  /\ holds_token empty_session = false
  /\ truthy (websdk_pat (config_with_pat (VNum (Fin 5)) VUndefined)) = true
  /\ ~ (response_status
          (handle (rt := sample_runtime)
             (token (rt := sample_runtime)
                (config_with_pat (VNum (Fin 5)) VUndefined) no_env)
             empty_session) = 200
        \/ response_status
             (handle (rt := sample_runtime)
                (token (rt := sample_runtime)
                   (config_with_pat (VNum (Fin 5)) VUndefined) no_env)
                empty_session) = 401).
Proof.
  split; [apply reachable_empty|]. split; [reflexivity|].
  split; [reflexivity|]. vm_compute. intros [H|H]; discriminate H.
Qed.

(** C7. [GET /token] only reads: whatever branch it takes (session token,
    fallback, 401, or the 500 of a fallback that is not a string), the
    session object is the one the request came with and no call to the
    provider is made.  The session is arbitrary, so the record's
    [expire_at] may lie before any instant one cares to name. *)
Theorem token_pure_read {rt : JSRuntime}
    (config : Config) (env : Env) (s : Session) :
  session (handle (token config env) s) = Some s
  /\ next_session (handle (token config env) s) = s
  /\ trace (handle (token config env) s) = [].
Proof.
  destruct (handle_token_frame config env s) as [Hs Ht].
  unfold next_session. rewrite Hs, Ht. repeat split.
Qed.

(** C10. The fallback is trimmed before it is tested: on a session without
    a usable token (an anonymous one in particular), a fallback made of
    white space only is answered with 401 and the not-configured message,
    not with a token. *)
Theorem token_whitespace_fallback {rt : JSRuntime}
    (config : Config) (env : Env) (s : Session) (raw : jsstring) :
  holds_token s = false ->
  pat_source config env = VStr raw ->
  forallb isWhiteSpace raw = true ->
  response_status (handle (token config env) s) = 401
  /\ body (handle (token config env) s) =
     Some (BValue (err (lit "Public PAT not configured. Set env COZE_PAT or websdk_pat in coze_oauth_config.json."))).
Proof.
  intros Hs Hp Hw.
  rewrite (handle_token_fallback config env s raw Hs Hp).
  rewrite (trim_whitespace raw Hw). split; reflexivity.
Qed.

Lemma token_whitespace_fallback_witness :
  response_status
    (handle (rt := sample_runtime) (token (rt := sample_runtime)
               (config_with_pat (VStr (lit "real")) VUndefined)
               {| COZE_PAT := Some (lit "   ") |}) empty_session) = 401.
Proof.
  exact (proj1
    (token_whitespace_fallback (rt := sample_runtime)
       (config_with_pat (VStr (lit "real")) VUndefined)
       {| COZE_PAT := Some (lit "   ") |} empty_session (lit "   ")
       eq_refl eq_refl eq_refl)).
Defined.

(** ** GET /callback *)

(** C2. The two preconditions of [/callback] are tested in order, each
    with its own reason on the error page: a missing (falsy) [code] gives
    400 with "No authorization code received", whatever the session holds;
    a [code] with no verifier in the session gives 400 with "No code
    verifier found"; neither case calls the provider. *)
Theorem callback_preconditions {rt : JSRuntime} {api : CozeApi}
    (config : Config) (now : Z) (query : jsval) (s : Session) :
  (truthy (get_prop query (lit "code")) = false ->
     response_status (handle (callback config now query) s) = 400
     /\ body (handle (callback config now query) s) =
        Some (renderTemplate "error.html"
          [ (lit "error",
             VStr (lit "Authorization failed: "
                   ++ lit "No authorization code received")) ])
     /\ trace (handle (callback config now query) s) = [])
  /\ (truthy (get_prop query (lit "code")) = true ->
      truthy (codeVerifier s) = false ->
      response_status (handle (callback config now query) s) = 400
      /\ body (handle (callback config now query) s) =
         Some (renderTemplate "error.html"
           [ (lit "error",
              VStr (lit "Authorization failed: "
                    ++ lit "No code verifier found")) ])
      /\ trace (handle (callback config now query) s) = [])
  /\ lit "No authorization code received" <> lit "No code verifier found".
Proof.
  split; [|split].
  - intros Hc. rewrite (handle_callback_no_code config api now query s Hc).
    repeat split.
  - intros Hc Hv.
    rewrite (handle_callback_no_verifier config api now query s Hc Hv).
    repeat split.
  - discriminate.
Qed.

Lemma callback_preconditions_witness :
  response_status
    (handle (rt := sample_runtime) (callback (rt := sample_runtime)
               (api := answering_api sample_token) sample_config 0 (VObj []))
       pending_session) = 400
  /\ response_status
       (handle (rt := sample_runtime) (callback (rt := sample_runtime)
                  (api := answering_api sample_token) sample_config 0
                  (code_query "c"))
          empty_session) = 400.
Proof.
  split.
  - exact (proj1 (proj1
      (callback_preconditions (rt := sample_runtime)
         (api := answering_api sample_token) sample_config 0 (VObj [])
         pending_session) eq_refl)).
  - exact (proj1 (proj1 (proj2
      (callback_preconditions (rt := sample_runtime)
         (api := answering_api sample_token) sample_config 0 (code_query "c")
         empty_session)) eq_refl eq_refl)).
Defined.

Lemma callback_exchange_frame {rt : JSRuntime} (api : CozeApi)
    (config : Config) (now : Z) (query : jsval) (s : Session) :
  truthy (get_prop query (lit "code")) = true ->
  truthy (codeVerifier s) = true ->
  codeVerifier (next_session (handle (callback config now query) s)) =
  codeVerifier s
  /\ trace (handle (callback config now query) s) =
     [ GetPKCEOAuthToken (coze_api_base config) (client_id config)
         (get_prop query (lit "code")) REDIRECT_URI (codeVerifier s) ].
Proof.
  intros Hc Hv. rewrite (handle_callback_exchange config api now query s Hc Hv).
  destruct (getPKCEOAuthToken _ _ _ _ _); split; reflexivity.
Qed.




(** ** POST /refresh_token *)

Lemma resolve_refresh_token_body (request_body : jsval)
    (o : option OAuthRecord) :
  truthy (body_refresh_token request_body) = true ->
  resolve_refresh_token request_body o = body_refresh_token request_body.
Proof.
  intros H. unfold resolve_refresh_token. rewrite H. reflexivity.
Qed.

Lemma resolve_refresh_token_session (request_body : jsval)
    (o : option OAuthRecord) :
  truthy (body_refresh_token request_body) = false ->
  truthy (session_refresh_token o) = true ->
  resolve_refresh_token request_body o = session_refresh_token o.
Proof.
  intros Hb Hs. unfold resolve_refresh_token. rewrite Hb, Hs. reflexivity.
Qed.

Lemma resolve_refresh_token_none (request_body : jsval)
    (o : option OAuthRecord) :
  truthy (body_refresh_token request_body) = false ->
  truthy (session_refresh_token o) = false ->
  truthy (resolve_refresh_token request_body o) = false.
Proof.
  intros Hb Hs. unfold resolve_refresh_token. rewrite Hb, Hs. exact Hb.
Qed.

Lemma refresh_exchange_trace {rt : JSRuntime} (api : CozeApi)
    (config : Config) (now : Z) (request_body : jsval) (s : Session) :
  truthy (resolve_refresh_token request_body (oauth s)) = true ->
  trace (handle (refresh config now request_body) s) =
  [ RefreshOAuthToken (coze_api_base config) (client_id config)
      (resolve_refresh_token request_body (oauth s)) ].
Proof.
  intros H. rewrite (handle_refresh_exchange config api now request_body s H).
  destruct (refreshOAuthToken _ _ _); reflexivity.
Qed.

(** C4. [/refresh_token] goes to the provider with the body's
    [refresh_token] when that is present (truthy), else with the session
    record's; when neither is there it answers 401 with the message "No
    refresh token available. Please re-login." and calls nothing. *)
Theorem refresh_token_resolution {rt : JSRuntime} {api : CozeApi}
    (config : Config) (now : Z) (request_body : jsval) (s : Session) :
  (truthy (body_refresh_token request_body) = true ->
     trace (handle (refresh config now request_body) s) =
     [ RefreshOAuthToken (coze_api_base config) (client_id config)
         (body_refresh_token request_body) ])
  /\ (truthy (body_refresh_token request_body) = false ->
      truthy (session_refresh_token (oauth s)) = true ->
      trace (handle (refresh config now request_body) s) =
      [ RefreshOAuthToken (coze_api_base config) (client_id config)
          (session_refresh_token (oauth s)) ])
  /\ (truthy (body_refresh_token request_body) = false ->
      truthy (session_refresh_token (oauth s)) = false ->
      response_status (handle (refresh config now request_body) s) = 401
      /\ body (handle (refresh config now request_body) s) =
         Some (BValue (VObj
           [ (lit "error",
              VStr (lit "No refresh token available. Please re-login.")) ]))
      /\ trace (handle (refresh config now request_body) s) = []
      /\ next_session (handle (refresh config now request_body) s) = s).
Proof.
  split; [|split].
  - intros Hb.
    pose proof (resolve_refresh_token_body request_body (oauth s) Hb) as E.
    rewrite <- E. apply refresh_exchange_trace. rewrite E. exact Hb.
  - intros Hb Hs.
    pose proof (resolve_refresh_token_session request_body (oauth s) Hb Hs)
      as E.
    rewrite <- E. apply refresh_exchange_trace. rewrite E. exact Hs.
  - intros Hb Hs.
    rewrite (handle_refresh_no_token config api now request_body s
               (resolve_refresh_token_none request_body (oauth s) Hb Hs)).
    repeat split.
Qed.

Lemma refresh_token_resolution_witness :
  trace (handle (rt := sample_runtime) (refresh (rt := sample_runtime)
                   (api := answering_api sample_token) sample_config 0
                   (VObj [ (lit "refresh_token", VStr (lit "rt0")) ]))
           authenticated_session) =
  [ RefreshOAuthToken (coze_api_base sample_config) (client_id sample_config)
      (VStr (lit "rt0")) ]
  /\ trace (handle (rt := sample_runtime) (refresh (rt := sample_runtime)
                      (api := answering_api sample_token) sample_config 0
                      (VObj [])) authenticated_session) =
     [ RefreshOAuthToken (coze_api_base sample_config)
         (client_id sample_config) (VStr (lit "rt1")) ]
  /\ response_status
       (handle (rt := sample_runtime) (refresh (rt := sample_runtime)
                  (api := answering_api sample_token) sample_config 0
                  (VObj [])) empty_session) = 401.
Proof.
  split; [|split].
  - exact (proj1
      (refresh_token_resolution (rt := sample_runtime)
         (api := answering_api sample_token) sample_config 0
         (VObj [ (lit "refresh_token", VStr (lit "rt0")) ])
         authenticated_session) eq_refl).
  - exact (proj1 (proj2
      (refresh_token_resolution (rt := sample_runtime)
         (api := answering_api sample_token) sample_config 0 (VObj [])
         authenticated_session)) eq_refl eq_refl).
  - exact (proj1 (proj2 (proj2
      (refresh_token_resolution (rt := sample_runtime)
         (api := answering_api sample_token) sample_config 0 (VObj [])
         empty_session)) eq_refl eq_refl)).
Defined.

(** C5. A refresh whose provider exchange fails answers 500 with the
    provider's message, and the request ends with the session object it
    started with: the stored record is not touched. *)
Theorem refresh_failure_nondestructive {rt : JSRuntime} {api : CozeApi}
    (config : Config) (now : Z) (request_body : jsval) (s : Session)
    (error : Error) :
  truthy (resolve_refresh_token request_body (oauth s)) = true ->
  refreshOAuthToken (coze_api_base config) (client_id config)
    (resolve_refresh_token request_body (oauth s)) = Throw error ->
  response_status (handle (refresh config now request_body) s) = 500
  /\ body (handle (refresh config now request_body) s) =
     Some (BValue (VObj
       [ (lit "error",
          VStr (lit "Failed to refresh token: " ++ message error)) ]))
  /\ session (handle (refresh config now request_body) s) = Some s
  /\ oauth (next_session (handle (refresh config now request_body) s)) =
     oauth s.
Proof.
  intros Ht He.
  rewrite (handle_refresh_exchange config api now request_body s Ht), He.
  repeat split.
Qed.

Lemma refresh_failure_nondestructive_witness :
  response_status
    (handle (rt := sample_runtime) (refresh (rt := sample_runtime)
               (api := rejecting_api (lit "invalid_grant")) sample_config 5000
               (VObj [])) authenticated_session) = 500
  /\ oauth (next_session
       (handle (rt := sample_runtime) (refresh (rt := sample_runtime)
                  (api := rejecting_api (lit "invalid_grant")) sample_config
                  5000 (VObj [])) authenticated_session)) =
     oauth authenticated_session.
Proof.
  pose proof
    (refresh_failure_nondestructive (rt := sample_runtime)
       (api := rejecting_api (lit "invalid_grant")) sample_config 5000
       (VObj []) authenticated_session {| message := lit "invalid_grant" |}
       eq_refl eq_refl) as H.
  exact (conj (proj1 H) (proj2 (proj2 (proj2 H)))).
Defined.

(** C9. A body whose [refresh_token] is the empty string, or any other
    falsy value, is handled exactly as a body without one: the request
    goes to the provider with the session record's refresh token when
    there is one, and is answered 401 without a call otherwise. *)
Theorem refresh_falsy_explicit_token {rt : JSRuntime} {api : CozeApi}
    (config : Config) (now : Z) (request_body : jsval) (s : Session) :
  truthy (body_refresh_token request_body) = false ->
  handle (refresh config now request_body) s =
  handle (refresh config now (VObj [])) s
  /\ (truthy (session_refresh_token (oauth s)) = true ->
      trace (handle (refresh config now request_body) s) =
      [ RefreshOAuthToken (coze_api_base config) (client_id config)
          (session_refresh_token (oauth s)) ])
  /\ (truthy (session_refresh_token (oauth s)) = false ->
      response_status (handle (refresh config now request_body) s) = 401
      /\ trace (handle (refresh config now request_body) s) = []).
Proof.
  intros Hb.
  assert (He : truthy (body_refresh_token (VObj [])) = false) by reflexivity.
  split; [|split].
  - destruct (truthy (session_refresh_token (oauth s))) eqn:Hs.
    + pose proof (resolve_refresh_token_session request_body _ Hb Hs) as E1.
      pose proof (resolve_refresh_token_session (VObj []) _ He Hs) as E2.
      rewrite (handle_refresh_exchange config api now request_body s)
        by (rewrite E1; exact Hs).
      rewrite (handle_refresh_exchange config api now (VObj []) s)
        by (rewrite E2; exact Hs).
      rewrite E1, E2. reflexivity.
    + rewrite (handle_refresh_no_token config api now request_body s
                 (resolve_refresh_token_none request_body _ Hb Hs)).
      rewrite (handle_refresh_no_token config api now (VObj []) s
                 (resolve_refresh_token_none (VObj []) _ He Hs)).
      reflexivity.
  - intros Hs.
    pose proof (resolve_refresh_token_session request_body _ Hb Hs) as E.
    rewrite <- E. apply refresh_exchange_trace. rewrite E. exact Hs.
  - intros Hs.
    rewrite (handle_refresh_no_token config api now request_body s
               (resolve_refresh_token_none request_body _ Hb Hs)).
    split; reflexivity.
Qed.

Lemma refresh_falsy_explicit_token_witness :
  trace (handle (rt := sample_runtime) (refresh (rt := sample_runtime)
                   (api := answering_api sample_token) sample_config 0
                   (VObj [ (lit "refresh_token", VStr []) ]))
           authenticated_session) =
  [ RefreshOAuthToken (coze_api_base sample_config) (client_id sample_config)
      (VStr (lit "rt1")) ]
  /\ response_status
       (handle (rt := sample_runtime) (refresh (rt := sample_runtime)
                  (api := answering_api sample_token) sample_config 0
                  (VObj [ (lit "refresh_token", VStr []) ]))
          pending_session) = 401.
Proof.
  split.
  - exact (proj1 (proj2
      (refresh_falsy_explicit_token (rt := sample_runtime)
         (api := answering_api sample_token) sample_config 0
         (VObj [ (lit "refresh_token", VStr []) ]) authenticated_session
         eq_refl)) eq_refl).
  - exact (proj1 (proj2 (proj2
      (refresh_falsy_explicit_token (rt := sample_runtime)
         (api := answering_api sample_token) sample_config 0
         (VObj [ (lit "refresh_token", VStr []) ]) pending_session
         eq_refl)) eq_refl)).
Defined.

(** ** Issued records *)

(** The guard [Number(expires_in) || 0]: a lifetime that is no number
    counts as zero. *)
Lemma new_record_expire_at {rt : JSRuntime} (now : Z) (t : OAuthToken) :
  expire_at (new_record now t) =
  now + num_or_zero (Number (tok_expires_in t)) * 1000
  /\ (tok_expires_in t = VUndefined -> expire_at (new_record now t) = now).
Proof.
  split; [reflexivity|].
  intros H. unfold new_record. cbn [expire_at]. rewrite H. cbn. lia.
Qed.

(** C6, as the code has it.  After a successful callback, and after a
    successful refresh, the session holds a record whose [token_type] is
    ["pkce"], whose [expires_in] is the provider's, and whose [expire_at]
    is [now + (Number(expires_in) || 0) * 1000], [now] being the clock
    reading taken when the record is built: [now + n * 1000] for a numeric
    [expires_in] of [n], and [now] itself for an [expires_in] that is
    missing or no number. *)
Theorem issued_record_expiry {rt : JSRuntime} {api : CozeApi}
    (config : Config) (now : Z) (s : Session) (oauthToken : OAuthToken) :
  (forall query,
     truthy (get_prop query (lit "code")) = true ->
     truthy (codeVerifier s) = true ->
     getPKCEOAuthToken (coze_api_base config) (client_id config)
       (get_prop query (lit "code")) REDIRECT_URI (codeVerifier s)
     = Normal oauthToken ->
     exists r,
       oauth (next_session (handle (callback config now query) s)) = Some r
       /\ token_type r = VStr (lit "pkce")
       /\ expires_in r = tok_expires_in oauthToken
       /\ expire_at r
          = now + num_or_zero (Number (tok_expires_in oauthToken)) * 1000
       /\ (forall n, tok_expires_in oauthToken = VNum (Fin n) ->
           expire_at r = now + n * 1000)
       /\ (Number (tok_expires_in oauthToken) = NaN -> expire_at r = now))
  /\ (forall request_body,
        truthy (resolve_refresh_token request_body (oauth s)) = true ->
        refreshOAuthToken (coze_api_base config) (client_id config)
          (resolve_refresh_token request_body (oauth s))
        = Normal oauthToken ->
        exists r,
          oauth (next_session (handle (refresh config now request_body) s))
          = Some r
          /\ token_type r = VStr (lit "pkce")
          /\ expires_in r = tok_expires_in oauthToken
          /\ expire_at r
             = now + num_or_zero (Number (tok_expires_in oauthToken)) * 1000
          /\ (forall n, tok_expires_in oauthToken = VNum (Fin n) ->
              expire_at r = now + n * 1000)
          /\ (Number (tok_expires_in oauthToken) = NaN -> expire_at r = now)).
Proof.
  assert (Hrec :
    token_type (new_record now oauthToken) = VStr (lit "pkce")
    /\ expires_in (new_record now oauthToken) = tok_expires_in oauthToken
    /\ expire_at (new_record now oauthToken)
       = now + num_or_zero (Number (tok_expires_in oauthToken)) * 1000
    /\ (forall n, tok_expires_in oauthToken = VNum (Fin n) ->
        expire_at (new_record now oauthToken) = now + n * 1000)
    /\ (Number (tok_expires_in oauthToken) = NaN ->
        expire_at (new_record now oauthToken) = now)).
  { unfold new_record; cbn [token_type expires_in expire_at].
    do 3 (split; [reflexivity|]). split.
    - intros n ->. reflexivity.
    - intros ->. cbn [num_or_zero]. lia. }
  split.
  - intros query Hc Hv Hp.
    rewrite (handle_callback_exchange config api now query s Hc Hv), Hp.
    exists (new_record now oauthToken). split; [reflexivity|exact Hrec].
  - intros request_body Ht Hp.
    rewrite (handle_refresh_exchange config api now request_body s Ht), Hp.
    exists (new_record now oauthToken). split; [reflexivity|exact Hrec].
Qed.

Lemma issued_record_expiry_witness :
  (exists r,
     oauth (next_session
       (handle (rt := sample_runtime)
          (callback (rt := sample_runtime)
                  (api := answering_api sample_token) sample_config 1000
                  (code_query "c")) pending_session)) = Some r
     /\ token_type r = VStr (lit "pkce")
     /\ expire_at r = 1000 + 900 * 1000)
  /\ (exists r,
        oauth (next_session
          (handle (rt := sample_runtime)
             (refresh (rt := sample_runtime)
                     (api := answering_api sample_token) sample_config 5000
                     (VObj [])) authenticated_session)) = Some r
        /\ token_type r = VStr (lit "pkce")
        /\ expire_at r = 5000 + 900 * 1000)
  /\ (exists r,
        oauth (next_session
          (handle (rt := sample_runtime)
             (refresh (rt := sample_runtime)
                     (api := answering_api token_without_lifetime)
                     sample_config 5000 (VObj [])) authenticated_session))
        = Some r
        /\ token_type r = VStr (lit "pkce")
        /\ expire_at r = 5000).
Proof.
  split; [|split].
  - destruct (proj1
      (issued_record_expiry (rt := sample_runtime)
         (api := answering_api sample_token) sample_config 1000
         pending_session sample_token)
      (code_query "c") eq_refl eq_refl eq_refl)
      as (r & Ho & Ht & _ & _ & Hn & _).
    exists r. split; [exact Ho|]. split; [exact Ht|]. exact (Hn 900 eq_refl).
  - destruct (proj2
      (issued_record_expiry (rt := sample_runtime)
         (api := answering_api sample_token) sample_config 5000
         authenticated_session sample_token)
      (VObj []) eq_refl eq_refl)
      as (r & Ho & Ht & _ & _ & Hn & _).
    exists r. split; [exact Ho|]. split; [exact Ht|]. exact (Hn 900 eq_refl).
  - destruct (proj2
      (issued_record_expiry (rt := sample_runtime)
         (api := answering_api token_without_lifetime) sample_config 5000
         authenticated_session token_without_lifetime)
      (VObj []) eq_refl eq_refl)
      as (r & Ho & Ht & _ & _ & _ & Hu).
    exists r. split; [exact Ho|]. split; [exact Ht|]. exact (Hu eq_refl).
Defined.

(** C6 as the specification words it fails: when the provider's answer
    names no [expires_in], the record's [expire_at] is the clock reading
    itself, whereas [now + expires_in * 1000] is no number at all. *)
Lemma issued_record_expiry_counterexample :
  exists r,
    oauth (next_session
      (handle (rt := sample_runtime)
         (callback (rt := sample_runtime)
            (api := answering_api token_without_lifetime) sample_config 1000
            (code_query "c")) pending_session)) = Some r
    /\ expires_in r = VUndefined
    /\ expire_at r = 1000
    /\ Fin (expire_at r)
       <> num_add (Fin 1000)
            (num_mul (Number (rt := sample_runtime) (expires_in r)) 1000).
Proof.
  eexists. split; [reflexivity|]. split; [reflexivity|].
  split; [reflexivity|]. vm_compute. discriminate.
Qed.

(** ** POST /logout *)

(** C8, as the code has it.  [/logout] answers 200 with [{ok: true}]
    whatever the session, and the next request starts from the empty
    (anonymous) session; [/token] on it answers 401 when no fallback is
    configured (or the one selected is a string of white space), the
    trimmed fallback with [token_type] ["pat"] when the one selected is a
    string with other text, and 500 when the one selected is not a
    string. *)
Theorem logout_then_token {rt : JSRuntime}
    (config : Config) (env : Env) (s : Session) :
  response_status (handle logout s) = 200
  /\ body (handle logout s) = Some (BValue (VObj [ (lit "ok", VBool true) ]))
  /\ session (handle logout s) = None
  /\ next_session (handle logout s) = empty_session
  /\ (forall raw, pat_source config env = VStr raw -> trim raw = [] ->
      response_status
        (handle (token config env) (next_session (handle logout s))) = 401)
  /\ (forall raw, pat_source config env = VStr raw -> trim raw <> [] ->
      response_status
        (handle (token config env) (next_session (handle logout s))) = 200
      /\ body (handle (token config env) (next_session (handle logout s))) =
         Some (BValue (VObj [ (lit "token_type", VStr (lit "pat"));
                              (lit "access_token", VStr (trim raw)) ])))
  /\ ((forall raw, pat_source config env <> VStr raw) ->
      response_status
        (handle (token config env) (next_session (handle logout s))) = 500
      /\ body (handle (token config env) (next_session (handle logout s))) =
         Some (BValue (VObj
           [ (lit "error",
              VStr (lit "Failed to provide token: " ++ not_a_function)) ]))).
Proof.
  rewrite handle_logout. cbn [next_session session response_status status body].
  do 4 (split; [reflexivity|]). split; [|split].
  - intros raw Hp Ht.
    rewrite (handle_token_fallback config env empty_session raw eq_refl Hp).
    rewrite Ht. reflexivity.
  - intros raw Hp Ht.
    rewrite (handle_token_fallback config env empty_session raw eq_refl Hp).
    apply truthy_VStr in Ht. rewrite Ht. split; reflexivity.
  - intros Hn.
    rewrite (handle_token_type_error config env empty_session eq_refl Hn).
    split; reflexivity.
Qed.

Lemma logout_then_token_witness :
  response_status
    (handle (rt := sample_runtime)
       (token (rt := sample_runtime) sample_config no_env)
       (next_session
          (handle (rt := sample_runtime) logout authenticated_session)))
  = 401
  /\ body
       (handle (rt := sample_runtime)
          (token (rt := sample_runtime) sample_config
                  {| COZE_PAT := Some (lit "shared") |})
          (next_session
             (handle (rt := sample_runtime) logout authenticated_session))) =
     Some (BValue (VObj [ (lit "token_type", VStr (lit "pat"));
                          (lit "access_token", VStr (lit "shared")) ]))
  /\ response_status
       (handle (rt := sample_runtime)
          (token (rt := sample_runtime)
             (config_with_pat VUndefined (VBool true)) no_env)
          (next_session
             (handle (rt := sample_runtime) logout authenticated_session)))
     = 500.
Proof.
  split; [|split].
  - exact (proj1 (proj2 (proj2 (proj2 (proj2
      (logout_then_token (rt := sample_runtime) sample_config no_env
         authenticated_session))))) [] eq_refl eq_refl).
  - refine (proj2 (proj1 (proj2 (proj2 (proj2 (proj2 (proj2
      (logout_then_token (rt := sample_runtime) sample_config
         {| COZE_PAT := Some (lit "shared") |} authenticated_session))))))
      (lit "shared") eq_refl _)).
    vm_compute. discriminate.
  - refine (proj1 (proj2 (proj2 (proj2 (proj2 (proj2 (proj2
      (logout_then_token (rt := sample_runtime)
         (config_with_pat VUndefined (VBool true)) no_env
         authenticated_session)))))) _)).
    intros raw. vm_compute. discriminate.
Defined.

(** C8 as the specification words it fails: with a fallback configured
    that is not a string, [/token] after [/logout] answers neither the
    fallback nor 401. *)
Lemma logout_then_token_counterexample :
  truthy (pat (config_with_pat VUndefined (VBool true))) = true
  /\ ~ (response_status
          (handle (rt := sample_runtime)
             (token (rt := sample_runtime)
                (config_with_pat VUndefined (VBool true)) no_env)
             (next_session
                (handle (rt := sample_runtime) logout authenticated_session)))
        = 200
        \/ response_status
             (handle (rt := sample_runtime)
                (token (rt := sample_runtime)
                   (config_with_pat VUndefined (VBool true)) no_env)
                (next_session
                   (handle (rt := sample_runtime) logout
                      authenticated_session)))
           = 401).
Proof.
  split; [reflexivity|]. vm_compute. intros [H|H]; discriminate H.
Qed.

(** ** A fallback that is not a string *)

(** [loadConfig] does not check the type of [websdk_pat] and [pat]: a
    truthy value without a [trim] method makes [/token] answer 500. *)
Lemma token_fallback_type_error :
  response_status
    (handle (rt := sample_runtime) (token (rt := sample_runtime)
               (config_with_pat (VNum (Fin 5)) VUndefined) no_env)
       empty_session) = 500.
Proof. reflexivity. Qed.

(** * Further properties of the handlers *)

(** Unfolds a handler run down to the tests it makes. *)
Ltac run_handler :=
  cbv beta iota zeta delta
    [handle route login callback refresh token logout session_codeVerifier
     assign_codeVerifier assign_oauth with_session session_oauth String_trim
     try_catch bind await assign_status assign_body redirect
     assign_session_null set_session ctx_session throw ret start onerror
     response_status next_session session status body trace].

Ltac split_tests :=
  repeat match goal with
         | |- context [match getPKCEAuthenticationUrl ?a ?b ?c with _ => _ end] =>
             destruct (getPKCEAuthenticationUrl a b c)
         | |- context [match getPKCEOAuthToken ?a ?b ?c ?d ?e with _ => _ end] =>
             destruct (getPKCEOAuthToken a b c d e)
         | |- context [match refreshOAuthToken ?a ?b ?c with _ => _ end] =>
             destruct (refreshOAuthToken a b c)
         | |- context [match redirect_error ?u with _ => _ end] =>
             destruct (redirect_error u)
         | |- context [truthy ?v] => destruct (truthy v); cbn [negb andb]
         | |- context [match pat_source ?c ?e with _ => _ end] =>
             destruct (pat_source c e)
         | |- context [match trim ?s with _ => _ end] => destruct (trim s)
         | |- context [match oauth ?s with _ => _ end] => destruct (oauth s)
         end.

(** Every request is answered.  With the pages kept by name (the
    templates taken as readable), no exception leaves a handler: a
    rejection of the provider and the TypeError of a fallback without
    [trim] are all caught; a body is always set, and the status is one of
    200, 302, 400, 401, 500. *)
Theorem handlers_never_crash {rt : JSRuntime} (config : Config) (env : Env)
    (api : CozeApi) (now : Z) (r : Request) (s : Session) :
  exists c,
    route config env api now r (start s) = (Normal tt, c)
    /\ body c <> None
    /\ In (response_status c) [200; 302; 400; 401; 500].
Proof.
  destruct r as [|query|request_body| |]; run_handler; split_tests;
    eexists; (split; [reflexivity|]); cbn [body response_status status];
    (split; [discriminate|]); cbn [In]; tauto.
Qed.

(** With the pages kept by name (the templates taken as readable), an
    answer of 400 or above never changes the record, and leaves the whole
    session as the request found it, with one exception: a [/login] whose
    redirect throws has already stored the provider's verifier. *)
Theorem errors_keep_record {rt : JSRuntime} (config : Config) (env : Env)
    (api : CozeApi) (now : Z) (r : Request) (s : Session) :
  400 <= response_status (handle (route config env api now r) s) ->
  oauth (next_session (handle (route config env api now r) s)) = oauth s
  /\ (r <> GET_login ->
      session (handle (route config env api now r) s) = Some s)
  /\ (r = GET_login ->
      session (handle (route config env api now r) s) = Some s
      \/ exists a error,
           @getPKCEAuthenticationUrl api (coze_api_base config)
             (client_id config) REDIRECT_URI = Normal a
           /\ redirect_error (auth_url a) = Some error
           /\ session (handle (route config env api now r) s)
              = Some {| codeVerifier := auth_codeVerifier a;
                        oauth := oauth s |}).
Proof.
  destruct r as [|query|request_body| |].
  - cbn [route]. rewrite handle_login.
    destruct (getPKCEAuthenticationUrl _ _ _) as [a|e] eqn:Ha.
    + destruct (redirect_error (auth_url a)) as [error|] eqn:Hr;
        cbn [response_status status next_session session oauth]; intros H.
      * split; [reflexivity|]. split; [intros Hn; contradiction Hn; reflexivity|].
        intros _. right. exists a, error. repeat split. exact Hr.
      * exfalso. lia.
    + cbn [response_status status next_session session oauth]. intros _.
      split; [reflexivity|]. split; [reflexivity|]. intros _. left. reflexivity.
  - run_handler; split_tests;
      cbn [session response_status status body oauth]; intros H;
      try (exfalso; lia);
      (split; [reflexivity|]); (split; [reflexivity|]); intros E; discriminate E.
  - run_handler; split_tests;
      cbn [session response_status status body oauth]; intros H;
      try (exfalso; lia);
      (split; [reflexivity|]); (split; [reflexivity|]); intros E; discriminate E.
  - cbn [route]. destruct (handle_token_frame config env s) as [Hs _].
    unfold next_session. rewrite Hs. intros _.
    split; [reflexivity|]. split; [reflexivity|]. intros E. discriminate E.
  - run_handler. cbn [session response_status status body oauth].
    intros H. exfalso. lia.
Qed.

Lemma errors_keep_record_witness :
  session
    (handle (rt := sample_runtime)
       (route (rt := sample_runtime) sample_config no_env
               (rejecting_api (lit "invalid_grant")) 0
               (GET_callback (code_query "c"))) pending_session)
  = Some pending_session
  /\ oauth
       (next_session
          (handle (rt := strict_runtime)
             (route (rt := strict_runtime) sample_config no_env
                (answering_api sample_token) 0 GET_login)
             authenticated_session))
     = oauth authenticated_session.
Proof.
  split.
  - refine (proj1 (proj2
      (errors_keep_record (rt := sample_runtime) sample_config no_env
         (rejecting_api (lit "invalid_grant")) 0
         (GET_callback (code_query "c")) pending_session _)) _).
    + vm_compute. discriminate.
    + discriminate.
  - refine (proj1
      (errors_keep_record (rt := strict_runtime) sample_config no_env
         (answering_api sample_token) 0 GET_login authenticated_session _)).
    vm_compute. discriminate.
Defined.

(** What each request may write.  [/login] never touches the record;
    [/callback] and [/refresh_token] never touch the verifier; [/token]
    touches nothing; [/logout] leaves the empty session. *)
Theorem request_footprint {rt : JSRuntime} (config : Config) (env : Env)
    (api : CozeApi) (now : Z) (r : Request) (s : Session) :
  match r with
  | GET_login =>
      oauth (next_session (handle (route config env api now r) s)) = oauth s
  | GET_callback _ | POST_refresh_token _ =>
      codeVerifier (next_session (handle (route config env api now r) s))
      = codeVerifier s
  | GET_token => next_session (handle (route config env api now r) s) = s
  | POST_logout =>
      next_session (handle (route config env api now r) s) = empty_session
  end.
Proof.
  destruct r as [|query|request_body| |]; run_handler; split_tests;
    reflexivity.
Qed.

(** A request calls the provider at most once, [/token] and [/logout]
    never; every call carries the configured base URL and client id, and
    the authorize request and the code exchange name the same redirect
    target. *)
Theorem provider_call_discipline {rt : JSRuntime} (config : Config)
    (env : Env) (api : CozeApi) (now : Z) (r : Request) (s : Session) :
  (List.length (trace (handle (route config env api now r) s)) <= 1)%nat
  /\ (forall call,
        In call (trace (handle (route config env api now r) s)) ->
        call_baseURL call = coze_api_base config
        /\ call_clientId call = client_id config
        /\ (forall url, call_redirectUrl call = Some url ->
            url = REDIRECT_URI))
  /\ match r with
     | GET_token | POST_logout =>
         trace (handle (route config env api now r) s) = []
     | _ => True
     end.
Proof.
  destruct r as [|query|request_body| |]; run_handler; split_tests;
    cbn [trace app List.length In];
    (split; [lia|]);
    (split; [|exact I || reflexivity]);
    intros call Hin; try contradiction; destruct Hin as [<-|[]];
    cbn [call_baseURL call_clientId call_redirectUrl];
    (split; [reflexivity|]); (split; [reflexivity|]);
    intros url E; try discriminate E; injection E as <-; reflexivity.
Qed.

(** ** From [/login] to [/callback] *)

Lemma arriving_session_live (saved : Z) (s : Session) (arrival : Z) :
  arrival <= saved + SESSION_maxAge ->
  arriving_session saved s arrival = s.
Proof.
  intros H. unfold arriving_session.
  destruct (Z.ltb_spec (saved + SESSION_maxAge) arrival); [lia|reflexivity].
Qed.

Lemma arriving_session_expired (saved : Z) (s : Session) (arrival : Z) :
  saved + SESSION_maxAge < arrival ->
  arriving_session saved s arrival = empty_session.
Proof.
  intros H. unfold arriving_session.
  destruct (Z.ltb_spec (saved + SESSION_maxAge) arrival); [reflexivity|lia].
Qed.

(** When the provider answers [/login], the verifier it handed out is
    stored in the session, replacing any earlier one, before the redirect
    is made: the answer is 302 to the provider's URL, or 500 with the
    error page when [ctx.redirect] throws on that URL, and the verifier is
    stored either way.  A [/callback] with a code that arrives before the
    session cookie expires sends exactly that verifier to the exchange,
    and is refused with 400 when the verifier handed out was falsy. *)
Theorem login_binds_verifier {rt : JSRuntime} (api next_api : CozeApi)
    (config : Config) (saved later : Z) (query : jsval) (s : Session)
    (a : AuthUrl) :
  @getPKCEAuthenticationUrl api (coze_api_base config) (client_id config)
    REDIRECT_URI = Normal a ->
  truthy (get_prop query (lit "code")) = true ->
  later < saved + SESSION_maxAge ->
  codeVerifier (next_session (handle (login (api := api) config) s))
  = auth_codeVerifier a
  /\ (redirect_error (auth_url a) = None ->
      response_status (handle (login (api := api) config) s) = 302
      /\ body (handle (login (api := api) config) s)
         = Some (BRedirect (auth_url a)))
  /\ (forall error, redirect_error (auth_url a) = Some error ->
      response_status (handle (login (api := api) config) s) = 500
      /\ body (handle (login (api := api) config) s)
         = Some (renderTemplate "error.html"
             [ (lit "error",
                VStr (lit "Failed to generate authorization URL: "
                      ++ message error)) ]))
  /\ (truthy (auth_codeVerifier a) = true ->
      trace (handle (callback (api := next_api) config later query)
               (arriving_session saved
                  (next_session (handle (login (api := api) config) s))
                  later))
      = [ GetPKCEOAuthToken (coze_api_base config) (client_id config)
            (get_prop query (lit "code")) REDIRECT_URI
            (auth_codeVerifier a) ])
  /\ (truthy (auth_codeVerifier a) = false ->
      response_status
        (handle (callback (api := next_api) config later query)
           (arriving_session saved
              (next_session (handle (login (api := api) config) s))
              later)) = 400).
Proof.
  intros Ha Hc Hl.
  rewrite (arriving_session_live saved _ later) by lia.
  rewrite (handle_login config api s), Ha.
  assert (Hn : next_session
                 match redirect_error (auth_url a) with
                 | Some error =>
                     {| session := Some {| codeVerifier := auth_codeVerifier a;
                                           oauth := oauth s |};
                        status := Some 500;
                        body := Some (renderTemplate "error.html"
                          [ (lit "error",
                             VStr (lit "Failed to generate authorization URL: "
                                   ++ message error)) ]);
                        trace := [ GetPKCEAuthenticationUrl
                                     (coze_api_base config) (client_id config)
                                     REDIRECT_URI ] |}
                 | None =>
                     {| session := Some {| codeVerifier := auth_codeVerifier a;
                                           oauth := oauth s |};
                        status := Some 302;
                        body := Some (BRedirect (auth_url a));
                        trace := [ GetPKCEAuthenticationUrl
                                     (coze_api_base config) (client_id config)
                                     REDIRECT_URI ] |}
                 end
               = {| codeVerifier := auth_codeVerifier a; oauth := oauth s |})
    by (destruct (redirect_error (auth_url a)); reflexivity).
  rewrite Hn. cbn [codeVerifier].
  split; [reflexivity|]. split; [|split; [|split]].
  - intros ->. split; reflexivity.
  - intros error ->. split; reflexivity.
  - intros Hv.
    exact (proj2 (callback_exchange_frame next_api config later query
                    {| codeVerifier := auth_codeVerifier a; oauth := oauth s |}
                    Hc Hv)).
  - intros Hv.
    rewrite (handle_callback_no_verifier config next_api later query
               {| codeVerifier := auth_codeVerifier a; oauth := oauth s |}
               Hc Hv).
    reflexivity.
Qed.

Lemma login_binds_verifier_witness :
  trace
    (handle (rt := sample_runtime)
       (callback (rt := sample_runtime)
               (api := rejecting_api (lit "invalid_grant")) sample_config 7
               (code_query "c"))
       (arriving_session 0
          (next_session
             (handle (rt := sample_runtime)
                (login (rt := sample_runtime)
                     (api := answering_api sample_token) sample_config)
                {| codeVerifier := VStr (lit "v0"); oauth := None |}))
          7))
  = [ GetPKCEOAuthToken (coze_api_base sample_config)
        (client_id sample_config) (VStr (lit "c")) REDIRECT_URI
        (VStr (lit "v1")) ]
  /\ response_status
       (handle (rt := strict_runtime)
          (login (rt := strict_runtime) (api := answering_api sample_token)
             sample_config)
          {| codeVerifier := VStr (lit "v0"); oauth := None |}) = 500.
Proof.
  split.
  - refine (proj1 (proj2 (proj2 (proj2
      (login_binds_verifier (rt := sample_runtime)
         (answering_api sample_token) (rejecting_api (lit "invalid_grant"))
         sample_config 0 7 (code_query "c")
         {| codeVerifier := VStr (lit "v0"); oauth := None |}
         {| auth_codeVerifier := VStr (lit "v1");
            auth_url := VStr (lit "https://provider/authorize") |}
         eq_refl eq_refl _)))) eq_refl).
    reflexivity.
  - refine (proj1 (proj1 (proj2 (proj2
      (login_binds_verifier (rt := strict_runtime)
         (answering_api sample_token) (rejecting_api (lit "invalid_grant"))
         sample_config 0 7 (code_query "c")
         {| codeVerifier := VStr (lit "v0"); oauth := None |}
         {| auth_codeVerifier := VStr (lit "v1");
            auth_url := VStr (lit "https://provider/authorize") |}
         eq_refl eq_refl _))) {| message := lit "Invalid URL" |} eq_refl)).
    reflexivity.
Defined.

(** A provider failure is shown with the provider's message: [/login]
    answers 500 with "Failed to generate authorization URL: " and the
    message, a [/callback] that reached the exchange answers 500 with
    "Failed to get access token: " and the message; both through
    [error.html]. *)
Theorem provider_error_pages {rt : JSRuntime} (api : CozeApi)
    (config : Config) (now : Z) (query : jsval) (s : Session) (e : Error) :
  (getPKCEAuthenticationUrl (coze_api_base config) (client_id config)
     REDIRECT_URI = Throw e ->
   response_status (handle (login config) s) = 500
   /\ body (handle (login config) s) =
      Some (renderTemplate "error.html"
        [ (lit "error",
           VStr (lit "Failed to generate authorization URL: "
                 ++ message e)) ]))
  /\ (truthy (get_prop query (lit "code")) = true ->
      truthy (codeVerifier s) = true ->
      getPKCEOAuthToken (coze_api_base config) (client_id config)
        (get_prop query (lit "code")) REDIRECT_URI (codeVerifier s)
      = Throw e ->
      response_status (handle (callback config now query) s) = 500
      /\ body (handle (callback config now query) s) =
         Some (renderTemplate "error.html"
           [ (lit "error",
              VStr (lit "Failed to get access token: " ++ message e)) ])).
Proof.
  split.
  - intros H. rewrite (handle_login config api s), H. split; reflexivity.
  - intros Hc Hv H.
    rewrite (handle_callback_exchange config api now query s Hc Hv), H.
    split; reflexivity.
Qed.

Lemma provider_error_pages_witness :
  response_status
    (handle (rt := sample_runtime) (login (rt := sample_runtime)
               (api := rejecting_api (lit "unreachable")) sample_config)
       empty_session) = 500
  /\ response_status
       (handle (rt := sample_runtime) (callback (rt := sample_runtime)
                  (api := rejecting_api (lit "unreachable")) sample_config 0
                  (code_query "c")) pending_session) = 500.
Proof.
  pose proof
    (provider_error_pages (rt := sample_runtime)
       (rejecting_api (lit "unreachable")) sample_config 0 (code_query "c"))
    as H.
  split.
  - exact (proj1 (proj1 (H empty_session {| message := lit "unreachable" |})
                   eq_refl)).
  - exact (proj1 (proj2 (H pending_session {| message := lit "unreachable" |})
                   eq_refl eq_refl eq_refl)).
Defined.

(** ** Using what was issued *)

Lemma issued_record_use {rt : JSRuntime} (config : Config) (env : Env)
    (now : Z) (t : OAuthToken) (s : Session) :
  oauth s = Some (new_record now t) ->
  (truthy (tok_access_token t) = true ->
   response_status (handle (token config env) s) = 200
   /\ body (handle (token config env) s) =
      Some (BValue (VObj [ (lit "token_type", VStr (lit "pkce"));
                           (lit "access_token", tok_access_token t) ])))
  /\ (forall (api : CozeApi) (later : Z) (request_body : jsval),
        truthy (body_refresh_token request_body) = false ->
        truthy (tok_refresh_token t) = true ->
        trace (handle (refresh config later request_body) s) =
        [ RefreshOAuthToken (coze_api_base config) (client_id config)
            (tok_refresh_token t) ]).
Proof.
  intros Ho. split.
  - intros Ha.
    rewrite (handle_token_session config env s (new_record now t) Ho Ha).
    split; reflexivity.
  - intros api later request_body Hb Hr.
    assert (Hs : truthy (session_refresh_token (oauth s)) = true)
      by (rewrite Ho; exact Hr).
    pose proof (resolve_refresh_token_session request_body (oauth s) Hb Hs)
      as E.
    rewrite (refresh_exchange_trace api config later request_body s)
      by (rewrite E; exact Hs).
    rewrite E, Ho. reflexivity.
Qed.

Lemma no_record_use {rt : JSRuntime} (api : CozeApi) (config : Config)
    (now : Z) (request_body : jsval) :
  holds_token empty_session = false
  /\ (truthy (body_refresh_token request_body) = false ->
      response_status (handle (refresh config now request_body) empty_session)
      = 401
      /\ trace (handle (refresh config now request_body) empty_session) = []).
Proof.
  split; [reflexivity|]. intros Hb.
  rewrite (handle_refresh_no_token config api now request_body empty_session
             (resolve_refresh_token_none request_body None Hb eq_refl)).
  split; reflexivity.
Qed.

(** After a successful [/callback], whatever record the session held
    before and whatever fallback is configured, a request that arrives
    before the session cookie expires finds the new record: [/token]
    serves the access token just issued, as ["pkce"], and a
    [/refresh_token] without a token of its own goes to the provider with
    the refresh token just issued.  Once the cookie has expired the
    session is empty again: no session token, and such a
    [/refresh_token] is refused with 401 without a call. *)
Theorem callback_then_use {rt : JSRuntime} (api next_api : CozeApi)
    (config : Config) (env : Env) (now saved later : Z)
    (query request_body : jsval) (s : Session) (t : OAuthToken) :
  truthy (get_prop query (lit "code")) = true ->
  truthy (codeVerifier s) = true ->
  @getPKCEOAuthToken api (coze_api_base config) (client_id config)
    (get_prop query (lit "code")) REDIRECT_URI (codeVerifier s) = Normal t ->
  (later < saved + SESSION_maxAge ->
   (truthy (tok_access_token t) = true ->
    response_status
      (handle (token config env)
         (arriving_session saved
            (next_session (handle (callback (api := api) config now query) s))
            later))
    = 200
    /\ body
         (handle (token config env)
            (arriving_session saved
               (next_session
                  (handle (callback (api := api) config now query) s))
               later))
       = Some (BValue (VObj [ (lit "token_type", VStr (lit "pkce"));
                              (lit "access_token", tok_access_token t) ])))
   /\ (truthy (body_refresh_token request_body) = false ->
       truthy (tok_refresh_token t) = true ->
       trace
         (handle (refresh (api := next_api) config later request_body)
            (arriving_session saved
               (next_session
                  (handle (callback (api := api) config now query) s))
               later))
       = [ RefreshOAuthToken (coze_api_base config) (client_id config)
             (tok_refresh_token t) ]))
  /\ (saved + SESSION_maxAge < later ->
      holds_token
        (arriving_session saved
           (next_session (handle (callback (api := api) config now query) s))
           later) = false
      /\ (truthy (body_refresh_token request_body) = false ->
          response_status
            (handle (refresh (api := next_api) config later request_body)
               (arriving_session saved
                  (next_session
                     (handle (callback (api := api) config now query) s))
                  later)) = 401
          /\ trace
               (handle (refresh (api := next_api) config later request_body)
                  (arriving_session saved
                     (next_session
                        (handle (callback (api := api) config now query) s))
                     later)) = [])).
Proof.
  intros Hc Hv Hp. split.
  - intros Hl. rewrite (arriving_session_live saved _ later) by lia.
    assert (Ho : oauth (next_session
                   (handle (callback (api := api) config now query) s))
                 = Some (new_record now t)).
    { rewrite (handle_callback_exchange config api now query s Hc Hv), Hp.
      reflexivity. }
    destruct (issued_record_use config env now t _ Ho) as [H1 H2].
    split; [exact H1|]. intros Hb Hr.
    exact (H2 next_api later request_body Hb Hr).
  - intros Hl. rewrite (arriving_session_expired saved _ later Hl).
    exact (no_record_use next_api config later request_body).
Qed.

Lemma callback_then_use_witness :
  response_status
    (handle (rt := sample_runtime)
       (token (rt := sample_runtime)
               (config_with_pat (VStr (lit "shared")) VUndefined) no_env)
       (arriving_session 0
          (next_session
             (handle (rt := sample_runtime)
                (callback (rt := sample_runtime)
                     (api := answering_api sample_token)
                     (config_with_pat (VStr (lit "shared")) VUndefined) 0
                     (code_query "c")) pending_session))
          86399999)) = 200
  /\ response_status
       (handle (rt := sample_runtime)
          (refresh (rt := sample_runtime) (api := answering_api sample_token)
             (config_with_pat (VStr (lit "shared")) VUndefined) 86401001
             (VObj []))
          (arriving_session 1000
             (next_session
                (handle (rt := sample_runtime)
                   (callback (rt := sample_runtime)
                      (api := answering_api sample_token)
                      (config_with_pat (VStr (lit "shared")) VUndefined) 1000
                      (code_query "c")) pending_session))
             86401001)) = 401.
Proof.
  split.
  - refine (proj1 (proj1 (proj1
      (callback_then_use (rt := sample_runtime) (answering_api sample_token)
         (answering_api sample_token)
         (config_with_pat (VStr (lit "shared")) VUndefined) no_env 0 0
         86399999 (code_query "c") (VObj []) pending_session sample_token
         eq_refl eq_refl eq_refl) _) eq_refl)).
    reflexivity.
  - refine (proj1 (proj2 (proj2
      (callback_then_use (rt := sample_runtime) (answering_api sample_token)
         (answering_api sample_token)
         (config_with_pat (VStr (lit "shared")) VUndefined) no_env 1000 1000
         86401001 (code_query "c") (VObj []) pending_session sample_token
         eq_refl eq_refl eq_refl) _) eq_refl)).
    reflexivity.
Defined.

(** After a successful [/refresh_token], with the token taken from the body
    or from the session, on a session with or without a record, a request
    that arrives before the session cookie expires finds the new record:
    [/token] serves the new access token and a [/refresh_token] without a
    token of its own uses the new refresh token, not the one just spent.
    Once the cookie has expired the session is empty again: no session
    token, and such a [/refresh_token] is refused with 401 without a
    call. *)
Theorem refresh_then_use {rt : JSRuntime} (api next_api : CozeApi)
    (config : Config) (env : Env) (now saved later : Z)
    (request_body next_body : jsval) (s : Session) (t : OAuthToken) :
  truthy (resolve_refresh_token request_body (oauth s)) = true ->
  @refreshOAuthToken api (coze_api_base config) (client_id config)
    (resolve_refresh_token request_body (oauth s)) = Normal t ->
  (later < saved + SESSION_maxAge ->
   (truthy (tok_access_token t) = true ->
    response_status
      (handle (token config env)
         (arriving_session saved
            (next_session
               (handle (refresh (api := api) config now request_body) s))
            later))
    = 200
    /\ body
         (handle (token config env)
            (arriving_session saved
               (next_session
                  (handle (refresh (api := api) config now request_body) s))
               later))
       = Some (BValue (VObj [ (lit "token_type", VStr (lit "pkce"));
                              (lit "access_token", tok_access_token t) ])))
   /\ (truthy (body_refresh_token next_body) = false ->
       truthy (tok_refresh_token t) = true ->
       trace
         (handle (refresh (api := next_api) config later next_body)
            (arriving_session saved
               (next_session
                  (handle (refresh (api := api) config now request_body) s))
               later))
       = [ RefreshOAuthToken (coze_api_base config) (client_id config)
             (tok_refresh_token t) ]))
  /\ (saved + SESSION_maxAge < later ->
      holds_token
        (arriving_session saved
           (next_session
              (handle (refresh (api := api) config now request_body) s))
           later) = false
      /\ (truthy (body_refresh_token next_body) = false ->
          response_status
            (handle (refresh (api := next_api) config later next_body)
               (arriving_session saved
                  (next_session
                     (handle (refresh (api := api) config now request_body) s))
                  later)) = 401
          /\ trace
               (handle (refresh (api := next_api) config later next_body)
                  (arriving_session saved
                     (next_session
                        (handle (refresh (api := api) config now request_body)
                           s))
                     later)) = [])).
Proof.
  intros Ht Hp. split.
  - intros Hl. rewrite (arriving_session_live saved _ later) by lia.
    assert (Ho : oauth (next_session
                   (handle (refresh (api := api) config now request_body) s))
                 = Some (new_record now t)).
    { rewrite (handle_refresh_exchange config api now request_body s Ht), Hp.
      reflexivity. }
    destruct (issued_record_use config env now t _ Ho) as [H1 H2].
    split; [exact H1|]. intros Hb Hr.
    exact (H2 next_api later next_body Hb Hr).
  - intros Hl. rewrite (arriving_session_expired saved _ later Hl).
    exact (no_record_use next_api config later next_body).
Qed.

Lemma refresh_then_use_witness :
  trace
    (handle (rt := sample_runtime)
       (refresh (rt := sample_runtime)
               (api := rejecting_api (lit "invalid_grant")) sample_config 9
               (VObj []))
       (arriving_session 5
          (next_session
             (handle (rt := sample_runtime)
                (refresh (rt := sample_runtime)
                     (api := answering_api sample_token) sample_config 5
                     (VObj [ (lit "refresh_token", VStr (lit "rt0")) ]))
                empty_session))
          9))
  = [ RefreshOAuthToken (coze_api_base sample_config)
        (client_id sample_config) (VStr (lit "rt1")) ]
  /\ trace
       (handle (rt := sample_runtime)
          (refresh (rt := sample_runtime)
             (api := answering_api sample_token) sample_config 86400006
             (VObj []))
          (arriving_session 5
             (next_session
                (handle (rt := sample_runtime)
                   (refresh (rt := sample_runtime)
                      (api := answering_api sample_token) sample_config 5
                      (VObj [ (lit "refresh_token", VStr (lit "rt0")) ]))
                   empty_session))
             86400006)) = [].
Proof.
  split.
  - refine (proj2 (proj1
      (refresh_then_use (rt := sample_runtime) (answering_api sample_token)
         (rejecting_api (lit "invalid_grant")) sample_config no_env 5 5 9
         (VObj [ (lit "refresh_token", VStr (lit "rt0")) ]) (VObj [])
         empty_session sample_token eq_refl eq_refl) _) eq_refl eq_refl).
    reflexivity.
  - refine (proj2 (proj2 (proj2
      (refresh_then_use (rt := sample_runtime) (answering_api sample_token)
         (answering_api sample_token) sample_config no_env 5 5 86400006
         (VObj [ (lit "refresh_token", VStr (lit "rt0")) ]) (VObj [])
         empty_session sample_token eq_refl eq_refl) _) eq_refl)).
    reflexivity.
Defined.

(** ** After [/logout] *)

(** [/logout] drops every credential of the session: a [/callback] with a
    code is refused with 400 for want of a verifier, and a
    [/refresh_token] without a token of its own is refused with 401;
    neither reaches the provider. *)
Theorem logout_drops_credentials {rt : JSRuntime} (api : CozeApi)
    (config : Config) (now : Z) (query request_body : jsval) (s : Session) :
  (truthy (get_prop query (lit "code")) = true ->
   response_status
     (handle (callback config now query) (next_session (handle logout s)))
   = 400
   /\ trace
        (handle (callback config now query) (next_session (handle logout s)))
      = [])
  /\ (truthy (body_refresh_token request_body) = false ->
      response_status
        (handle (refresh config now request_body)
           (next_session (handle logout s))) = 401
      /\ trace
           (handle (refresh config now request_body)
              (next_session (handle logout s))) = []).
Proof.
  rewrite handle_logout. cbn [next_session session]. split.
  - intros Hc.
    rewrite (handle_callback_no_verifier config api now query empty_session
               Hc eq_refl).
    split; reflexivity.
  - intros Hb.
    rewrite (handle_refresh_no_token config api now request_body empty_session
               (resolve_refresh_token_none request_body None Hb eq_refl)).
    split; reflexivity.
Qed.

Lemma logout_drops_credentials_witness :
  response_status
    (handle (rt := sample_runtime) (callback (rt := sample_runtime)
               (api := answering_api sample_token) sample_config 0
               (code_query "c"))
       (next_session (handle (rt := sample_runtime) logout authenticated_session))) = 400
  /\ response_status
       (handle (rt := sample_runtime) (refresh (rt := sample_runtime)
                  (api := answering_api sample_token) sample_config 0
                  (VObj []))
          (next_session (handle (rt := sample_runtime) logout authenticated_session))) = 401.
Proof.
  pose proof
    (logout_drops_credentials (rt := sample_runtime)
       (answering_api sample_token) sample_config 0 (code_query "c")
       (VObj []) authenticated_session) as H.
  exact (conj (proj1 (proj1 H eq_refl)) (proj1 (proj2 H eq_refl))).
Defined.

(** ** Sessions and the provider *)

Lemma never_issues_step {rt : JSRuntime} (config : Config) (env : Env)
    (api : CozeApi) (now : Z) (r : Request) (s : Session) :
  never_issues api ->
  oauth s = None ->
  oauth (next_session (handle (route config env api now r) s)) = None.
Proof.
  intros [Hx Hr] Ho. destruct r as [|query|request_body| |]; cbn [route].
  - rewrite handle_login.
    destruct (getPKCEAuthenticationUrl _ _ _) as [a|e];
      [destruct (redirect_error (auth_url a))|];
      cbn [next_session session oauth]; exact Ho.
  - destruct (truthy (get_prop query (lit "code"))) eqn:Hc.
    + destruct (truthy (codeVerifier s)) eqn:Hv.
      * rewrite (handle_callback_exchange config api now query s Hc Hv).
        destruct (Hx (coze_api_base config) (client_id config)
                    (get_prop query (lit "code")) REDIRECT_URI
                    (codeVerifier s)) as [e ->].
        exact Ho.
      * rewrite (handle_callback_no_verifier config api now query s Hc Hv).
        exact Ho.
    + rewrite (handle_callback_no_code config api now query s Hc). exact Ho.
  - destruct (truthy (resolve_refresh_token request_body (oauth s))) eqn:Ht.
    + rewrite (handle_refresh_exchange config api now request_body s Ht).
      destruct (Hr (coze_api_base config) (client_id config)
                  (resolve_refresh_token request_body (oauth s))) as [e ->].
      exact Ho.
    + rewrite (handle_refresh_no_token config api now request_body s Ht).
      exact Ho.
  - unfold next_session.
    rewrite (proj1 (handle_token_frame config env s)). exact Ho.
  - rewrite handle_logout. reflexivity.
Qed.

(** The server never makes up a token: along any sequence of requests in
    which no exchange of the provider resolves, a session that starts
    without a record stays without one, so [/token] can only answer from
    the fallback. *)
Theorem no_record_without_provider {rt : JSRuntime} (config : Config)
    (env : Env) (steps : list (CozeApi * Z * Request)) (s : Session) :
  Forall (fun step => never_issues (fst (fst step))) steps ->
  oauth s = None ->
  oauth (run config env steps s) = None
  /\ holds_token (run config env steps s) = false.
Proof.
  intros Hall. revert s.
  induction Hall as [|[[api now] r] rest Hstep _ IH]; intros s Ho.
  - cbn [run]. unfold holds_token. rewrite Ho. split; reflexivity.
  - cbn [run]. apply IH.
    exact (never_issues_step config env api now r s Hstep Ho).
Qed.

Lemma rejecting_api_never_issues (msg : jsstring) :
  never_issues (rejecting_api msg).
Proof.
  split; intros; eexists; reflexivity.
Defined.

Lemma no_record_without_provider_witness :
  oauth
    (run (rt := sample_runtime) sample_config no_env
       [ (rejecting_api (lit "down"), 0, GET_login);
         (rejecting_api (lit "down"), 1, GET_callback (code_query "c"));
         (rejecting_api (lit "down"), 2,
          POST_refresh_token
            (VObj [ (lit "refresh_token", VStr (lit "rt0")) ])) ]
       pending_session) = None.
Proof.
  refine (proj1
    (no_record_without_provider (rt := sample_runtime) sample_config no_env
       _ pending_session _ eq_refl)).
  repeat (apply Forall_cons;
          [exact (rejecting_api_never_issues (lit "down"))|]).
  apply Forall_nil.
Defined.

(** ** The fallback token that [/token] serves *)

Lemma trimStart_split (s : jsstring) :
  exists a, s = a ++ trimStart s /\ forallb isWhiteSpace a = true.
Proof.
  induction s as [|c r [a [E W]]].
  - exists []. split; reflexivity.
  - cbn [trimStart]. destruct (isWhiteSpace c) eqn:Hc.
    + exists (c :: a). cbn [app forallb]. rewrite Hc, W, <- E.
      split; reflexivity.
    + exists []. split; reflexivity.
Qed.

Lemma trimStart_head (s : jsstring) (c : N) (r : jsstring) :
  trimStart s = c :: r -> isWhiteSpace c = false.
Proof.
  induction s as [|d s IH]; cbn [trimStart]; [discriminate|].
  destruct (isWhiteSpace d) eqn:Hd; [exact IH|].
  intros E. injection E as <- _. exact Hd.
Qed.

Lemma forallb_rev {A} (f : A -> bool) (l : list A) :
  forallb f (rev l) = forallb f l.
Proof.
  induction l as [|x l IH]; [reflexivity|].
  cbn [rev forallb]. rewrite forallb_app, IH. cbn [forallb].
  rewrite andb_true_r. apply andb_comm.
Qed.

Lemma trimEnd_split (s : jsstring) :
  exists b, s = trimEnd s ++ b /\ forallb isWhiteSpace b = true.
Proof.
  destruct (trimStart_split (rev s)) as [a [E W]].
  exists (rev a). split.
  - unfold trimEnd. rewrite <- rev_app_distr, <- E. symmetry. apply rev_involutive.
  - rewrite forallb_rev. exact W.
Qed.

Lemma trimEnd_last (s r : jsstring) (c : N) :
  trimEnd s = r ++ [c] -> isWhiteSpace c = false.
Proof.
  unfold trimEnd. intros E.
  apply (f_equal (@rev N)) in E.
  rewrite rev_involutive, rev_app_distr in E. cbn [rev app] in E.
  exact (trimStart_head _ _ _ E).
Qed.

(** [trim] removes white space at both ends and nothing else. *)
Lemma trim_split (s : jsstring) :
  exists a b,
    s = a ++ trim s ++ b
    /\ forallb isWhiteSpace a = true
    /\ forallb isWhiteSpace b = true
    /\ (forall c r, trim s = c :: r -> isWhiteSpace c = false)
    /\ (forall c r, trim s = r ++ [c] -> isWhiteSpace c = false).
Proof.
  destruct (trimStart_split s) as [a [Ea Wa]].
  destruct (trimEnd_split (trimStart s)) as [b [Eb Wb]].
  exists a, b. unfold trim. repeat split; try assumption.
  - rewrite <- Eb. exact Ea.
  - intros c r E. rewrite E in Eb. cbn [app] in Eb.
    exact (trimStart_head s c _ Eb).
  - intros c r E. exact (trimEnd_last _ _ _ E).
Qed.

(** Whenever [/token] answers 200 on a session without a usable token,
    the token it hands out is the configured fallback with the white
    space at both ends removed: it is not empty and neither starts nor
    ends with white space. *)
Theorem fallback_token_is_trimmed {rt : JSRuntime} (config : Config)
    (env : Env) (s : Session) :
  holds_token s = false ->
  response_status (handle (token config env) s) = 200 ->
  exists raw before tok after,
    pat_source config env = VStr raw
    /\ raw = before ++ tok ++ after
    /\ forallb isWhiteSpace before = true
    /\ forallb isWhiteSpace after = true
    /\ tok <> []
    /\ (forall c r, tok = c :: r -> isWhiteSpace c = false)
    /\ (forall c r, tok = r ++ [c] -> isWhiteSpace c = false)
    /\ body (handle (token config env) s) =
       Some (BValue (VObj [ (lit "token_type", VStr (lit "pat"));
                            (lit "access_token", VStr tok) ])).
Proof.
  intros Hs. destruct (pat_source config env) as [| |b|x|raw|items|props] eqn:Hp;
    try (revert Hs; unfold holds_token; run_handler; rewrite Hp;
         destruct (oauth s) as [o|]; [intros ->|intros _];
         cbn; discriminate).
  rewrite (handle_token_fallback config env s raw Hs Hp).
  destruct (trim_split raw) as (before & after & E & Wb & Wa & Hh & Hl).
  destruct (trim raw) as [|c t] eqn:Ht; cbn [truthy response_status status body];
    [discriminate|].
  intros _. exists raw, before, (c :: t), after.
  repeat split; try assumption; try discriminate.
Qed.

Lemma fallback_token_is_trimmed_witness :
  exists raw before tok after,
    pat_source (config_with_pat VUndefined (VStr (lit "  shared ")))
      no_env = VStr raw
    /\ raw = before ++ tok ++ after
    /\ forallb isWhiteSpace before = true
    /\ forallb isWhiteSpace after = true
    /\ tok <> []
    /\ (forall c r, tok = c :: r -> isWhiteSpace c = false)
    /\ (forall c r, tok = r ++ [c] -> isWhiteSpace c = false)
    /\ body (handle (rt := sample_runtime) (token (rt := sample_runtime)
                       (config_with_pat VUndefined (VStr (lit "  shared ")))
                       no_env) pending_session) =
       Some (BValue (VObj [ (lit "token_type", VStr (lit "pat"));
                            (lit "access_token", VStr tok) ])).
Proof.
  exact (fallback_token_is_trimmed (rt := sample_runtime)
           (config_with_pat VUndefined (VStr (lit "  shared "))) no_env
           pending_session eq_refl eq_refl).
Defined.

(** [loadConfig] leaves the type of [websdk_pat] and [pat] unchecked: when
    the first truthy fallback source is not a string, a session without a
    usable token gets 500 from [/token], with the TypeError of the missing
    [trim] method as the message. *)
Theorem token_fallback_not_a_string {rt : JSRuntime} (config : Config)
    (env : Env) (s : Session) :
  holds_token s = false ->
  (forall raw, pat_source config env <> VStr raw) ->
  response_status (handle (token config env) s) = 500
  /\ body (handle (token config env) s) =
     Some (BValue (VObj
       [ (lit "error",
          VStr (lit "Failed to provide token: " ++ not_a_function)) ])).
Proof.
  intros Hs Hn. revert Hs. unfold holds_token. run_handler.
  destruct (pat_source config env) as [| |b|x|raw|items|props] eqn:Hp;
    try (exfalso; exact (Hn raw eq_refl));
    (destruct (oauth s) as [o|]; [intros ->|intros _]; split; reflexivity).
Qed.

Lemma token_fallback_not_a_string_witness :
  response_status
    (handle (rt := sample_runtime) (token (rt := sample_runtime)
               (config_with_pat (VNum (Fin 5)) (VStr (lit "shared")))
               no_env) pending_session) = 500.
Proof.
  refine (proj1
    (token_fallback_not_a_string (rt := sample_runtime)
       (config_with_pat (VNum (Fin 5)) (VStr (lit "shared"))) no_env
       pending_session eq_refl _)).
  intros raw. vm_compute. discriminate.
Defined.

(** ** What a successful exchange shows *)

(** A successful [/callback] renders, and a successful [/refresh_token]
    returns, the provider's tokens as they came, with [token_type]
    ["pkce"].  Beside a numeric [expires_in] of [n] they put the local
    date of the instant [n * 1000] ms after the epoch: the number is read
    as a timestamp there, while the stored [expire_at] reads it as a
    lifetime counted from the request ([now + n * 1000]). *)
Theorem issued_token_is_shown {rt : JSRuntime} {api : CozeApi}
    (config : Config) (now : Z) (s : Session) (t : OAuthToken) (n : Z) :
  tok_expires_in t = VNum (Fin n) ->
  (forall query,
     truthy (get_prop query (lit "code")) = true ->
     truthy (codeVerifier s) = true ->
     getPKCEOAuthToken (coze_api_base config) (client_id config)
       (get_prop query (lit "code")) REDIRECT_URI (codeVerifier s)
     = Normal t ->
     response_status (handle (callback config now query) s) = 200
     /\ body (handle (callback config now query) s) =
        Some (renderTemplate "callback.html"
          [ (lit "token_type", VStr (lit "pkce"));
            (lit "access_token", tok_access_token t);
            (lit "refresh_token", tok_refresh_token t);
            (lit "expires_in",
             VStr (ToString (VNum (Fin n)) ++ lit " ("
                   ++ Date_toLocaleString (Fin (n * 1000)) ++ lit ")")) ])
     /\ option_map expire_at
          (oauth (next_session (handle (callback config now query) s)))
        = Some (now + n * 1000))
  /\ (forall request_body,
        truthy (resolve_refresh_token request_body (oauth s)) = true ->
        refreshOAuthToken (coze_api_base config) (client_id config)
          (resolve_refresh_token request_body (oauth s)) = Normal t ->
        response_status (handle (refresh config now request_body) s) = 200
        /\ body (handle (refresh config now request_body) s) =
           Some (BValue (VObj
             [ (lit "token_type", VStr (lit "pkce"));
               (lit "access_token", tok_access_token t);
               (lit "refresh_token", tok_refresh_token t);
               (lit "expires_in",
                VStr (ToString (VNum (Fin n)) ++ lit " ("
                      ++ Date_toLocaleString (Fin (n * 1000))
                      ++ lit ")")) ]))
        /\ option_map expire_at
             (oauth (next_session (handle (refresh config now request_body) s)))
           = Some (now + n * 1000)).
Proof.
  intros Hn. split.
  - intros query Hc Hv Hp.
    rewrite (handle_callback_exchange config api now query s Hc Hv), Hp.
    cbn [response_status status body next_session session oauth option_map].
    unfold expires_text, timestampToDatetime, new_record.
    cbn [expire_at]. rewrite Hn. repeat split.
  - intros request_body Ht Hp.
    rewrite (handle_refresh_exchange config api now request_body s Ht), Hp.
    cbn [response_status status body next_session session oauth option_map].
    unfold expires_text, timestampToDatetime, new_record.
    cbn [expire_at]. rewrite Hn. repeat split.
Qed.

Lemma issued_token_is_shown_witness :
  response_status
    (handle (rt := sample_runtime) (callback (rt := sample_runtime)
               (api := answering_api sample_token) sample_config 1000
               (code_query "c")) pending_session) = 200
  /\ response_status
       (handle (rt := sample_runtime) (refresh (rt := sample_runtime)
                  (api := answering_api sample_token) sample_config 1000
                  (VObj [])) authenticated_session) = 200.
Proof.
  pose proof
    (issued_token_is_shown (rt := sample_runtime)
       (api := answering_api sample_token) sample_config 1000) as H.
  split.
  - exact (proj1 (proj1 (H pending_session sample_token 900 eq_refl)
                   (code_query "c") eq_refl eq_refl eq_refl)).
  - exact (proj1 (proj2 (H authenticated_session sample_token 900 eq_refl)
                   (VObj []) eq_refl eq_refl)).
Defined.

(** * Start-up *)

Lemma trim_empty_iff (s : jsstring) :
  trim s = [] <-> forallb isWhiteSpace s = true.
Proof.
  split; [|apply trim_whitespace].
  intros E. destruct (trim_split s) as (a & b & Es & Wa & Wb & _).
  rewrite E in Es. cbn [app] in Es. rewrite Es, forallb_app, Wa, Wb.
  reflexivity.
Qed.

Lemma check_field_accepts (config : jsval) (field : jsstring) :
  check_field config field = Normal tt <-> acceptable (get_prop config field).
Proof.
  unfold check_field, acceptable.
  destruct (get_prop config field) as [| |b|[n|]|w|items|props];
    cbn [truthy negb empty_array blank_string];
    try (split; [discriminate|intros [H _]; discriminate H]).
  - destruct b; cbn [negb].
    + split; [intros _|reflexivity].
      repeat split; discriminate.
    + split; [discriminate|intros [H _]; discriminate H].
  - destruct (n =? 0)%Z; cbn [negb].
    + split; [discriminate|intros [H _]; discriminate H].
    + split; [intros _|reflexivity]. repeat split; discriminate.
  - destruct w as [|c w]; cbn [negb].
    + split; [discriminate|intros [H _]; discriminate H].
    + destruct (trim (c :: w)) as [|d t] eqn:Ht; cbn [negb].
      * split; [discriminate|].
        intros (_ & _ & H). apply trim_empty_iff in Ht.
        rewrite (H _ eq_refl) in Ht. discriminate Ht.
      * split; [intros _|reflexivity].
        repeat split; try discriminate.
        intros w' E. injection E as <-.
        destruct (forallb isWhiteSpace (c :: w)) eqn:Hw; [|reflexivity].
        apply trim_empty_iff in Hw. rewrite Hw in Ht. discriminate Ht.
  - destruct items as [|i items].
    + split; [discriminate|]. intros (_ & H & _). contradiction H; reflexivity.
    + split; [intros _|reflexivity]. repeat split; discriminate.
  - split; [intros _|reflexivity]. repeat split; discriminate.
Qed.

Lemma check_fields_accepts (config : jsval) (fields : list jsstring) :
  check_fields config fields = Normal tt <->
  Forall (fun field => acceptable (get_prop config field)) fields.
Proof.
  induction fields as [|f rest IH]; cbn [check_fields].
  - split; [constructor|reflexivity].
  - destruct (check_field config f) as [[]|e] eqn:Hf.
    + rewrite IH. split.
      * intros H. constructor; [apply check_field_accepts; exact Hf|exact H].
      * intros H. inversion H; assumption.
    + split; [discriminate|].
      intros H. inversion H as [|? ? Hacc _]; subst.
      apply check_field_accepts in Hacc. rewrite Hacc in Hf. discriminate Hf.
Qed.

(** [loadConfig] returns exactly when the file exists, parses, and each of
    [client_type], [client_id], [coze_www_base], [coze_api_base] is truthy,
    not an empty array and not a string of white space; it then returns
    the parsed value as it is, optional properties unchecked. *)
Theorem loadConfig_accepts {rt : JSRuntime}
    (JSON_parse : jsstring -> completion jsval) (file : option jsstring)
    (config : jsval) :
  loadConfig JSON_parse file = Normal config <->
  exists text,
    file = Some text
    /\ JSON_parse text = Normal config
    /\ Forall (fun field => acceptable (get_prop config field))
         requiredFields.
Proof.
  unfold loadConfig. split.
  - destruct file as [text|]; [|discriminate].
    destruct (JSON_parse text) as [parsed|e] eqn:Hp; [|discriminate].
    destruct (check_fields parsed requiredFields) as [[]|e] eqn:Hc;
      [|destruct parsed; discriminate].
    intros H. assert (parsed = config) as ->
      by (destruct parsed; try discriminate H; injection H as <-; reflexivity).
    exists text. split; [reflexivity|]. split; [exact Hp|].
    apply check_fields_accepts. exact Hc.
  - intros (text & -> & -> & H).
    pose proof H as Hc. apply check_fields_accepts in Hc. rewrite Hc.
    destruct config; try reflexivity.
    inversion H as [|? ? (Ht & _) _]; subst. discriminate Ht.
Qed.

Lemma check_fields_first_error (config : jsval)
    (before : list jsstring) (field : jsstring) (after : list jsstring)
    (e : Error) :
  Forall (fun f => acceptable (get_prop config f)) before ->
  check_field config field = Throw e ->
  check_fields config (before ++ field :: after) = Throw e.
Proof.
  intros Hb He. induction Hb as [|f rest Hf _ IH]; cbn [app check_fields].
  - rewrite He. reflexivity.
  - apply check_field_accepts in Hf. rewrite Hf. exact IH.
Qed.

(** The required fields are checked in the order [client_type],
    [client_id], [coze_www_base], [coze_api_base], and the first one that
    does not pass names the error: a falsy value, the empty string
    included, is reported as a missing field; an empty array as an empty
    array; a string of white space that is not empty as an empty string. *)
Theorem loadConfig_reports_first_invalid {rt : JSRuntime}
    (JSON_parse : jsstring -> completion jsval) (text : jsstring)
    (config : jsval) (before : list jsstring) (field : jsstring)
    (after : list jsstring) :
  JSON_parse text = Normal config ->
  config <> VNull ->
  requiredFields = before ++ field :: after ->
  Forall (fun f => acceptable (get_prop config f)) before ->
  (truthy (get_prop config field) = false ->
   loadConfig JSON_parse (Some text) =
   Throw {| message :=
     lit "Configuration file missing required field: " ++ field |})
  /\ (get_prop config field = VArr [] ->
      loadConfig JSON_parse (Some text) =
      Throw {| message :=
        lit "Configuration field " ++ field
        ++ lit " cannot be an empty array" |})
  /\ (forall w, get_prop config field = VStr w -> w <> [] ->
      forallb isWhiteSpace w = true ->
      loadConfig JSON_parse (Some text) =
      Throw {| message :=
        lit "Configuration field " ++ field
        ++ lit " cannot be an empty string" |}).
Proof.
  intros Hp Hn Hr Hb.
  assert (Hload : forall e, check_field config field = Throw e ->
                            loadConfig JSON_parse (Some text) = Throw e).
  { intros e He. unfold loadConfig. rewrite Hp, Hr.
    rewrite (check_fields_first_error config before field after e Hb He).
    destruct config; try reflexivity. contradiction Hn; reflexivity. }
  split; [|split].
  - intros Hf. apply Hload. unfold check_field. rewrite Hf. reflexivity.
  - intros Hf. apply Hload. unfold check_field. rewrite Hf. reflexivity.
  - intros w Hf Hw Hws. apply Hload. unfold check_field. rewrite Hf.
    destruct w as [|c w]; [contradiction Hw; reflexivity|].
    cbn [truthy negb empty_array blank_string].
    rewrite (trim_whitespace _ Hws). reflexivity.
Qed.

Lemma loadConfig_reports_first_invalid_witness :
  loadConfig (rt := sample_runtime)
    (parse_to (VObj [ (lit "client_type", VStr (lit "pkce"));
                      (lit "client_id", VStr []);
                      (lit "coze_www_base", VStr (lit " ")) ]))
    (Some (lit "{}")) =
  Throw {| message :=
    lit "Configuration file missing required field: " ++ lit "client_id" |}.
Proof.
  refine (proj1
    (loadConfig_reports_first_invalid (rt := sample_runtime)
       (parse_to (VObj [ (lit "client_type", VStr (lit "pkce"));
                         (lit "client_id", VStr []);
                         (lit "coze_www_base", VStr (lit " ")) ]))
       (lit "{}") _ [ lit "client_type" ] (lit "client_id")
       [ lit "coze_www_base"; lit "coze_api_base" ]
       eq_refl _ eq_refl _) eq_refl).
  - discriminate.
  - apply Forall_cons; [|apply Forall_nil].
    split; [reflexivity|]. split; [discriminate|].
    intros w E. injection E as <-. reflexivity.
Defined.

Lemma calls_carry_config {rt : JSRuntime} (config : Config) (env : Env)
    (api : CozeApi) (now : Z) (r : Request) (s : Session) (call : ApiCall) :
  In call (trace (handle (route config env api now r) s)) ->
  call_baseURL call = coze_api_base config
  /\ call_clientId call = client_id config.
Proof.
  destruct r as [|query|request_body| |]; run_handler; split_tests;
    cbn [trace app In]; intros Hin; try contradiction;
    destruct Hin as [<-|[]]; split; reflexivity.
Qed.

(** With a configuration that [loadConfig] returned, every call any
    handler makes to the provider carries a truthy base URL and a truthy
    client id. *)
Theorem loaded_config_calls {rt : JSRuntime}
    (JSON_parse : jsstring -> completion jsval) (file : option jsstring)
    (config : jsval) (env : Env) (api : CozeApi) (now : Z) (r : Request)
    (s : Session) (call : ApiCall) :
  loadConfig JSON_parse file = Normal config ->
  In call (trace (handle (route (config_record config) env api now r) s)) ->
  truthy (call_baseURL call) = true /\ truthy (call_clientId call) = true.
Proof.
  intros Hl Hin.
  destruct (calls_carry_config (config_record config) env api now r s call Hin)
    as [-> ->].
  unfold loadConfig in Hl.
  destruct file as [text|]; [|discriminate Hl].
  destruct (JSON_parse text) as [parsed|e]; [|discriminate Hl].
  destruct (check_fields parsed requiredFields) as [[]|e] eqn:Hc;
    [|destruct parsed; discriminate Hl].
  assert (parsed = config) as ->
    by (destruct parsed; try discriminate Hl; injection Hl as <-; reflexivity).
  apply check_fields_accepts in Hc.
  inversion Hc as [|? ? _ H1]; subst.
  inversion H1 as [|? ? (Hid & _) H2]; subst.
  inversion H2 as [|? ? _ H3]; subst.
  inversion H3 as [|? ? (Hbase & _) _]; subst.
  split; [exact Hbase|exact Hid].
Qed.

Lemma loaded_config_calls_witness :
  truthy (call_baseURL
            (RefreshOAuthToken (VStr (lit "https://api.coze.com"))
               (VStr (lit "client")) (VStr (lit "rt1")))) = true
  /\ truthy (call_clientId
               (RefreshOAuthToken (VStr (lit "https://api.coze.com"))
                  (VStr (lit "client")) (VStr (lit "rt1")))) = true.
Proof.
  refine (loaded_config_calls (rt := sample_runtime)
            (parse_to sample_config_json) (Some (lit "{}"))
            sample_config_json no_env (answering_api sample_token) 0
            (POST_refresh_token (VObj [])) authenticated_session _
            eq_refl _).
  left. reflexivity.
Defined.

(** * Templates *)

Lemma jsstring_eqb_eq (a b : jsstring) : jsstring_eqb a b = true <-> a = b.
Proof.
  unfold jsstring_eqb. destruct (list_eq_dec N.eq_dec a b); split;
    congruence.
Qed.

Lemma starts_with_app (p rest : jsstring) : starts_with p (p ++ rest) = true.
Proof.
  induction p as [|a p IH]; [reflexivity|].
  cbn [app starts_with]. rewrite N.eqb_refl. exact IH.
Qed.

Lemma skipn_length_app {A} (p rest : list A) :
  skipn (List.length p) (p ++ rest) = rest.
Proof.
  induction p as [|a p IH]; [reflexivity|exact IH].
Qed.

Lemma GetSubstitution_dollar_free (matched before after x r : jsstring) :
  dollar_free x = true ->
  GetSubstitution matched before after (x ++ r)
  = x ++ GetSubstitution matched before after r.
Proof.
  induction x as [|c x IH]; [reflexivity|].
  cbn [dollar_free forallb]. intros H. apply andb_prop in H.
  destruct H as [Hc Hx]. cbn [app GetSubstitution].
  destruct (c =? 36)%N; [discriminate Hc|].
  rewrite (IH Hx). reflexivity.
Qed.

Lemma GetSubstitution_plain (matched before after x : jsstring) :
  dollar_free x = true ->
  GetSubstitution matched before after x = x.
Proof.
  intros H.
  pose proof (GetSubstitution_dollar_free matched before after x [] H) as E.
  rewrite app_nil_r in E. rewrite E. cbn [GetSubstitution]. apply app_nil_r.
Qed.

Lemma scan_skip (pattern replacement x : jsstring) :
  forall passed rest,
    replace_scan pattern replacement passed (x ++ rest) (List.length x)
    = replace_scan pattern replacement (rev x ++ passed) rest 0.
Proof.
  induction x as [|c x IH]; intros passed rest; [reflexivity|].
  cbn [app List.length replace_scan rev].
  rewrite (IH (c :: passed) rest), <- app_assoc. reflexivity.
Qed.

Section Scan.
Variable key : jsstring.
Variable replacement : jsstring.
Hypothesis key_ok : word_key key = true.

(** No match starts inside well-formed text, whatever follows it. *)
Lemma scan_text (t : jsstring) :
  text_ok t = true ->
  forall passed rest,
    replace_scan (placeholder key) replacement passed (t ++ rest) 0
    = t ++ replace_scan (placeholder key) replacement (rev t ++ passed) rest 0.
Proof.
  induction t as [|c t IH]; intros Ht passed rest; [reflexivity|].
  cbn [app replace_scan rev].
  assert (Hno : starts_with (placeholder key) (c :: t ++ rest) = false).
  { unfold placeholder. cbn [lit list_ascii_of_string List.map app starts_with].
    cbn [text_ok] in Ht. change (N_of_ascii "{") with 123%N.
    rewrite N.eqb_sym. destruct (c =? 123)%N; [|reflexivity].
    destruct t as [|d t]; [discriminate Ht|].
    apply andb_prop in Ht. destruct Ht as [Hd _].
    cbn [app starts_with]. rewrite N.eqb_sym.
    destruct (d =? 123)%N; [discriminate Hd|reflexivity]. }
  rewrite Hno.
  assert (Ht' : text_ok t = true).
  { cbn [text_ok] in Ht. destruct (c =? 123)%N; [|exact Ht].
    destruct t as [|d t]; [discriminate Ht|].
    apply andb_prop in Ht. exact (proj2 Ht). }
  rewrite (IH Ht' (c :: passed) rest), <- app_assoc. reflexivity.
Qed.

(** At a placeholder of the key, the value is put in. *)
Lemma scan_hole (passed rest : jsstring) :
  replace_scan (placeholder key) replacement passed
    (placeholder key ++ rest) 0
  = GetSubstitution (placeholder key) (rev passed) rest replacement
    ++ replace_scan (placeholder key) replacement
         (rev (placeholder key) ++ passed) rest 0.
Proof.
  pose proof (starts_with_app (placeholder key) rest) as Hs.
  pose proof (skipn_length_app (placeholder key) rest) as Hk.
  remember (placeholder key) as pat eqn:Epat.
  destruct pat as [|c pat]; [discriminate Epat|].
  cbn [app replace_scan]. cbn [app] in Hs. rewrite Hs.
  cbn [app] in Hk. rewrite Hk.
  cbn [List.length]. rewrite Nat.sub_succ, Nat.sub_0_r.
  rewrite (scan_skip (c :: pat) replacement pat (c :: passed) rest).
  cbn [rev]. rewrite <- app_assoc. reflexivity.
Qed.

End Scan.

Lemma word_char_not_brace (c : N) :
  word_char c = true -> (c =? 123)%N = false /\ (c =? 125)%N = false.
Proof.
  intros H. split.
  - destruct (N.eqb_spec c 123) as [->|]; [discriminate H|reflexivity].
  - destruct (N.eqb_spec c 125) as [->|]; [discriminate H|reflexivity].
Qed.

Lemma key_closed_text_ok (k rest : jsstring) :
  word_key k = true ->
  text_ok rest = true ->
  text_ok (k ++ lit "}}" ++ rest) = true.
Proof.
  intros Hk Hr. induction k as [|c k IH].
  - exact Hr.
  - cbn [word_key forallb] in Hk. apply andb_prop in Hk.
    destruct Hk as [Hc Hk]. cbn [app text_ok].
    rewrite (proj1 (word_char_not_brace c Hc)). exact (IH Hk).
Qed.

Lemma starts_with_key (k k' rest : jsstring) :
  word_key k = true ->
  word_key k' = true ->
  starts_with (k ++ lit "}}") (k' ++ lit "}}" ++ rest) = true ->
  k = k'.
Proof.
  revert k'. induction k as [|c k IH]; intros [|c' k'] Hk Hk' H.
  - reflexivity.
  - cbn [word_key forallb] in Hk'. apply andb_prop in Hk'.
    destruct Hk' as [Hc' _].
    cbn [lit list_ascii_of_string List.map app starts_with] in H.
    change (N_of_ascii "}") with 125%N in H. rewrite N.eqb_sym in H.
    rewrite (proj2 (word_char_not_brace c' Hc')) in H. discriminate H.
  - cbn [word_key forallb] in Hk. apply andb_prop in Hk.
    destruct Hk as [Hc _].
    cbn [lit list_ascii_of_string List.map app starts_with] in H.
    change (N_of_ascii "}") with 125%N in H.
    rewrite (proj2 (word_char_not_brace c Hc)) in H. discriminate H.
  - cbn [word_key forallb] in Hk, Hk'.
    apply andb_prop in Hk. apply andb_prop in Hk'.
    cbn [app starts_with] in H. apply andb_prop in H.
    destruct H as [Hcc H]. apply N.eqb_eq in Hcc. subst c'.
    f_equal. exact (IH k' (proj2 Hk) (proj2 Hk') H).
Qed.

Lemma scan_no_match (pattern replacement passed : jsstring) (c : N)
    (r : jsstring) :
  starts_with pattern (c :: r) = false ->
  replace_scan pattern replacement passed (c :: r) 0
  = c :: replace_scan pattern replacement (c :: passed) r 0.
Proof.
  intros H. cbn [replace_scan]. rewrite H. reflexivity.
Qed.

Section Passes.
Variable key : jsstring.
Variable replacement : jsstring.
Hypothesis key_ok : word_key key = true.

(** A placeholder of another key is passed over. *)
Lemma scan_other_hole (key' passed rest : jsstring) :
  word_key key' = true ->
  key' <> key ->
  replace_scan (placeholder key) replacement passed
    (placeholder key' ++ rest) 0
  = placeholder key'
    ++ replace_scan (placeholder key) replacement
         (rev (placeholder key') ++ passed) rest 0.
Proof.
  intros Hk' Hne.
  assert (Hno : starts_with (placeholder key) (placeholder key' ++ rest)
                = false).
  { destruct (starts_with (placeholder key) (placeholder key' ++ rest))
      eqn:E; [|reflexivity].
    exfalso. apply Hne. symmetry.
    apply (starts_with_key key key' rest key_ok Hk').
    unfold placeholder in E. rewrite <- !app_assoc in E.
    cbn [lit list_ascii_of_string List.map app starts_with] in E.
    rewrite !N.eqb_refl in E. exact E. }
  assert (Htail : text_ok (123%N :: key' ++ lit "}}") = true).
  { pose proof (key_closed_text_ok key' [] Hk' eq_refl) as H.
    rewrite app_nil_r in H. cbn [text_ok]. rewrite N.eqb_refl.
    destruct key' as [|c k'].
    - reflexivity.
    - cbn [app]. cbn [word_key forallb] in Hk'. apply andb_prop in Hk'.
      rewrite (proj1 (word_char_not_brace c (proj1 Hk'))). exact H. }
  assert (E : placeholder key' = 123%N :: (123%N :: key' ++ lit "}}"))
    by reflexivity.
  rewrite E in Hno |- *. cbn [app] in Hno |- *.
  rewrite (scan_no_match _ replacement passed _ _ Hno).
  pose proof (scan_text key replacement _ Htail (123%N :: passed) rest) as Ht.
  cbn [app] in Ht. rewrite Ht. cbn [rev app]. rewrite <- !app_assoc.
  reflexivity.
Qed.

Lemma replace_pieces (pieces : list piece) :
  dollar_free replacement = true ->
  forallb piece_ok pieces = true ->
  forall passed,
    replace_scan (placeholder key) replacement passed (flatten pieces) 0
    = flatten (List.map (fill_one key replacement) pieces).
Proof.
  intros Hd. induction pieces as [|p pieces IH]; intros Hok passed;
    [reflexivity|].
  cbn [forallb] in Hok. apply andb_prop in Hok. destruct Hok as [Hp Hps].
  unfold flatten in *. cbn [List.map List.concat].
  destruct p as [t|key']; cbn [piece_ok piece_text fill_one] in *.
  - rewrite (scan_text key replacement t Hp passed), (IH Hps). reflexivity.
  - destruct (jsstring_eqb key' key) eqn:E.
    + apply jsstring_eqb_eq in E. subst key'.
      rewrite (scan_hole key replacement passed), (IH Hps).
      rewrite (GetSubstitution_plain _ _ _ _ Hd). reflexivity.
    + assert (Hne : key' <> key).
      { intros ->. rewrite (proj2 (jsstring_eqb_eq key key) eq_refl) in E.
        discriminate E. }
      rewrite (scan_other_hole key' passed _ Hp Hne), (IH Hps).
      reflexivity.
Qed.

End Passes.

Lemma String_replace_text (key replacement t : jsstring) :
  text_ok t = true ->
  String_replace (placeholder key) replacement t = t.
Proof.
  intros Ht. unfold String_replace.
  pose proof (scan_text key replacement t Ht [] []) as E.
  rewrite app_nil_r in E. rewrite E. cbn [replace_scan]. apply app_nil_r.
Qed.

Lemma String_replace_pieces (key replacement : jsstring)
    (pieces : list piece) :
  word_key key = true ->
  dollar_free replacement = true ->
  forallb piece_ok pieces = true ->
  String_replace (placeholder key) replacement (flatten pieces)
  = flatten (List.map (fill_one key replacement) pieces).
Proof.
  intros Hk Hd Hp. exact (replace_pieces key replacement Hk pieces Hd Hp []).
Qed.

Lemma lookup_prop_in (variables : list (jsstring * jsval)) (k : jsstring) :
  In k (List.map fst variables) -> In (k, lookup_prop variables k) variables.
Proof.
  induction variables as [|[k' v] rest IH]; cbn [List.map In lookup_prop fst];
    [tauto|].
  destruct (jsstring_eqb k' k) eqn:E.
  - apply jsstring_eqb_eq in E. subst k'. intros _. left. reflexivity.
  - intros [->|H].
    + rewrite (proj2 (jsstring_eqb_eq k k) eq_refl) in E. discriminate E.
    + right. exact (IH H).
Qed.

Section Render.
Context {rt : JSRuntime}.
Variable variables : list (jsstring * jsval).

Lemma fill_one_ok (key : jsstring) (pieces : list piece) :
  text_ok (replacement_of (lookup_prop variables key)) = true ->
  forallb piece_ok pieces = true ->
  forallb piece_ok
    (List.map (fill_one key (replacement_of (lookup_prop variables key)))
       pieces) = true.
Proof.
  intros Hv. induction pieces as [|p pieces IH]; [reflexivity|].
  cbn [forallb List.map]. intros H. apply andb_prop in H.
  destruct H as [Hp Hps]. rewrite (IH Hps), andb_true_r.
  destruct p as [t|k]; cbn [fill_one]; [exact Hp|].
  destruct (jsstring_eqb k key); [exact Hv|exact Hp].
Qed.

Lemma fill_from_cons (key : jsstring) (keys : list jsstring) (p : piece) :
  fill_from keys variables
    (fill_one key (replacement_of (lookup_prop variables key)) p)
  = fill_from (key :: keys) variables p.
Proof.
  destruct p as [t|k]; cbn [fill_one fill_from existsb]; [reflexivity|].
  destruct (jsstring_eqb k key) eqn:E; cbn [orb fill_from]; [|reflexivity].
  apply jsstring_eqb_eq in E. subst k. reflexivity.
Qed.

Lemma fold_pieces (keys : list jsstring) :
  (forall k, In k keys ->
     word_key k = true
     /\ text_ok (replacement_of (lookup_prop variables k)) = true
     /\ dollar_free (replacement_of (lookup_prop variables k)) = true) ->
  forall pieces,
    forallb piece_ok pieces = true ->
    fold_left
      (fun template key =>
         String_replace (placeholder key)
           (replacement_of (lookup_prop variables key)) template)
      keys (flatten pieces)
    = flatten (List.map (fill_from keys variables) pieces).
Proof.
  induction keys as [|key keys IH]; intros Hk pieces Hp.
  - cbn [fold_left]. f_equal. symmetry.
    rewrite <- (map_id pieces) at 2. apply map_ext.
    intros [t|k]; reflexivity.
  - cbn [fold_left].
    destruct (Hk key (or_introl eq_refl)) as (Hw & Ht & Hd).
    rewrite (String_replace_pieces key _ pieces Hw Hd Hp).
    rewrite (IH (fun k H => Hk k (or_intror H)) _ (fill_one_ok key pieces Ht Hp)).
    rewrite map_map. f_equal. apply map_ext. intros p.
    apply fill_from_cons.
Qed.

End Render.

(** [renderTemplate] does what it is for.  On a template made of
    placeholders and of text in which no opening brace is followed by
    another or ends the text, with values that are such text too and hold
    no dollar sign, the text returned is the template with every
    placeholder of a key among the variables replaced by that key's value;
    all other text, and the placeholders of other keys, are as they were. *)
Theorem renderTemplate_fills_placeholders {rt : JSRuntime}
    (readFileSync : jsstring -> completion jsstring) (path : jsstring)
    (variables : list (jsstring * jsval)) (pieces : list piece) :
  readFileSync path = Normal (flatten pieces) ->
  forallb piece_ok pieces = true ->
  Forall (fun kv =>
            word_key (fst kv) = true
            /\ text_ok (replacement_of (snd kv)) = true
            /\ dollar_free (replacement_of (snd kv)) = true) variables ->
  renderTemplate_text readFileSync path variables
  = Normal (flatten (List.map (fill variables) pieces)).
Proof.
  intros Hr Hp Hv. unfold renderTemplate_text, fill. rewrite Hr. f_equal.
  apply fold_pieces; [|exact Hp].
  intros k Hin. apply lookup_prop_in in Hin.
  rewrite Forall_forall in Hv. exact (Hv _ Hin).
Qed.

Lemma renderTemplate_fills_placeholders_witness :
  renderTemplate_text (rt := sample_runtime)
    (reads_as (lit "<p>{{error}}</p><i>{{hint}}</i> h1 { color: red }"))
    (lit "error.html") [ (lit "error", VStr (lit "boom")) ]
  = Normal (lit "<p>boom</p><i>{{hint}}</i> h1 { color: red }").
Proof.
  refine (renderTemplate_fills_placeholders (rt := sample_runtime)
            (reads_as (lit "<p>{{error}}</p><i>{{hint}}</i> h1 { color: red }"))
            (lit "error.html") [ (lit "error", VStr (lit "boom")) ]
            [ Text (lit "<p>"); Hole (lit "error"); Text (lit "</p><i>");
              Hole (lit "hint"); Text (lit "</i> h1 { color: red }") ]
            eq_refl eq_refl _).
  apply Forall_cons; [|apply Forall_nil].
  repeat split; reflexivity.
Defined.

(** A template without placeholders comes back as it is, whatever the
    variables hold. *)
Theorem renderTemplate_without_placeholders {rt : JSRuntime}
    (readFileSync : jsstring -> completion jsstring) (path : jsstring)
    (variables : list (jsstring * jsval)) (template : jsstring) :
  readFileSync path = Normal template ->
  text_ok template = true ->
  Forall (fun kv => word_key (fst kv) = true) variables ->
  renderTemplate_text readFileSync path variables = Normal template.
Proof.
  intros Hr Ht _. unfold renderTemplate_text. rewrite Hr. f_equal.
  induction (List.map fst variables) as [|key keys IH]; [reflexivity|].
  cbn [fold_left]. rewrite (String_replace_text key _ template Ht). exact IH.
Qed.

Lemma renderTemplate_without_placeholders_witness :
  renderTemplate_text (rt := sample_runtime)
    (reads_as (lit "<b>{ static }</b>")) (lit "error.html")
    [ (lit "error", VStr (lit "$& {{error}}")) ]
  = Normal (lit "<b>{ static }</b>").
Proof.
  refine (renderTemplate_without_placeholders (rt := sample_runtime)
            (reads_as (lit "<b>{ static }</b>")) (lit "error.html")
            [ (lit "error", VStr (lit "$& {{error}}")) ]
            (lit "<b>{ static }</b>") eq_refl eq_refl _).
  apply Forall_cons; [reflexivity|apply Forall_nil].
Defined.




Lemma dollar_free_placeholder (key : jsstring) :
  word_key key = true -> dollar_free (placeholder key) = true.
Proof.
  intros Hk. unfold placeholder, dollar_free. rewrite !forallb_app.
  replace (forallb (fun c => negb (c =? 36)%N) key) with true;
    [reflexivity|].
  symmetry. induction key as [|c key IH]; [reflexivity|].
  cbn [word_key forallb] in Hk |- *. apply andb_prop in Hk.
  destruct Hk as [Hc Hk]. rewrite (IH Hk), andb_true_r.
  destruct (N.eqb_spec c 36) as [->|]; [discriminate Hc|reflexivity].
Qed.

Lemma flatten_three (a b : jsstring) (p : piece) :
  flatten [ Text a; p; Text b ] = a ++ piece_text p ++ b.
Proof.
  unfold flatten. cbn [List.map List.concat piece_text].
  rewrite app_nil_r. reflexivity.
Qed.

(** The keys are replaced one after the other, each pass over the result
    of the one before: a placeholder that arrives inside the value of an
    earlier key is filled by the pass of a later key, and is left standing
    when its own key came first. *)
Theorem renderTemplate_passes_in_key_order {rt : JSRuntime}
    (readFileSync : jsstring -> completion jsstring) (path : jsstring)
    (k1 k2 before after v : jsstring) :
  word_key k1 = true ->
  word_key k2 = true ->
  k1 <> k2 ->
  text_ok before = true ->
  text_ok after = true ->
  dollar_free v = true ->
  readFileSync path = Normal (before ++ placeholder k1 ++ after) ->
  renderTemplate_text readFileSync path
    [ (k1, VStr (placeholder k2)); (k2, VStr v) ]
  = Normal (before ++ v ++ after)
  /\ renderTemplate_text readFileSync path
       [ (k2, VStr v); (k1, VStr (placeholder k2)) ]
     = Normal (before ++ placeholder k2 ++ after).
Proof.
  intros H1 H2 Hne Hb Ha Hv Hr.
  assert (E12 : jsstring_eqb k1 k2 = false).
  { destruct (jsstring_eqb k1 k2) eqn:E; [|reflexivity].
    apply jsstring_eqb_eq in E. contradiction. }
  assert (E21 : jsstring_eqb k2 k1 = false).
  { destruct (jsstring_eqb k2 k1) eqn:E; [|reflexivity].
    apply jsstring_eqb_eq in E. symmetry in E. contradiction. }
  assert (E11 : jsstring_eqb k1 k1 = true) by (apply jsstring_eqb_eq; reflexivity).
  assert (E22 : jsstring_eqb k2 k2 = true) by (apply jsstring_eqb_eq; reflexivity).
  assert (Hok : forall k, word_key k = true ->
                forallb piece_ok [ Text before; Hole k; Text after ] = true).
  { intros k Hk. cbn [forallb piece_ok]. rewrite Hb, Ha, Hk. reflexivity. }
  pose proof (dollar_free_placeholder k2 H2) as Hd2.
  unfold renderTemplate_text. rewrite Hr.
  cbn [List.map fst fold_left lookup_prop].
  rewrite E11, E22, E12, E21. cbn [replacement_of].
  replace (before ++ placeholder k1 ++ after)
    with (flatten [ Text before; Hole k1; Text after ])
    by exact (flatten_three before after (Hole k1)).
  split; f_equal.
  - rewrite (String_replace_pieces k1 (placeholder k2) _ H1 Hd2 (Hok k1 H1)).
    cbn [List.map fill_one]. rewrite E11.
    change (flatten [ Text before; Text (placeholder k2); Text after ])
      with (flatten [ Text before; Hole k2; Text after ]).
    rewrite (String_replace_pieces k2 v _ H2 Hv (Hok k2 H2)).
    cbn [List.map fill_one]. rewrite E22. apply flatten_three.
  - rewrite (String_replace_pieces k2 v _ H2 Hv (Hok k1 H1)).
    cbn [List.map fill_one]. rewrite E12.
    rewrite (String_replace_pieces k1 (placeholder k2) _ H1 Hd2 (Hok k1 H1)).
    cbn [List.map fill_one]. rewrite E11. apply flatten_three.
Qed.

Lemma renderTemplate_passes_in_key_order_witness :
  renderTemplate_text (rt := sample_runtime)
    (reads_as (lit "token: {{access_token}}")) (lit "callback.html")
    [ (lit "access_token", VStr (lit "{{refresh_token}}"));
      (lit "refresh_token", VStr (lit "secret")) ]
  = Normal (lit "token: secret").
Proof.
  refine (proj1
    (renderTemplate_passes_in_key_order (rt := sample_runtime)
       (reads_as (lit "token: {{access_token}}")) (lit "callback.html")
       (lit "access_token") (lit "refresh_token") (lit "token: ") []
       (lit "secret") eq_refl eq_refl _ eq_refl eq_refl eq_refl eq_refl)).
  vm_compute. discriminate.
Defined.

(** * The image middleware *)

Lemma strip_ci_split (p s r : jsstring) :
  strip_ci p s = Some r ->
  exists q,
    s = q ++ r /\ List.map ascii_upper q = List.map ascii_upper p.
Proof.
  revert s. induction p as [|a p IH]; intros s H.
  - exists []. injection H as <-. split; reflexivity.
  - destruct s as [|b s]; [discriminate H|]. cbn [strip_ci] in H.
    destruct (N.eqb_spec (ascii_upper a) (ascii_upper b)) as [E|];
      [|discriminate H].
    destruct (IH s H) as (q & -> & Hq).
    exists (b :: q). cbn [app List.map]. rewrite Hq, E. split; reflexivity.
Qed.

Lemma strip_ci_app (p q r : jsstring) :
  List.map ascii_upper q = List.map ascii_upper p ->
  strip_ci p (q ++ r) = Some r.
Proof.
  revert q. induction p as [|a p IH]; intros [|b q] H; try discriminate H.
  - reflexivity.
  - cbn [List.map] in H. injection H as Hb Hq.
    cbn [app strip_ci]. rewrite Hb, N.eqb_refl. exact (IH q Hq).
Qed.

Lemma ends_png_iff (s : jsstring) :
  ends_png s = true <-> List.map ascii_upper s = lit ".PNG".
Proof.
  unfold ends_png. split.
  - destruct (strip_ci (lit ".png") s) as [[|c r]|] eqn:E; try discriminate.
    intros _. destruct (strip_ci_split _ _ _ E) as (q & -> & Hq).
    rewrite app_nil_r. exact Hq.
  - intros H. pose proof (strip_ci_app (lit ".png") s [] H) as E.
    rewrite app_nil_r in E. rewrite E. reflexivity.
Qed.

Lemma drop_digits_split (s : jsstring) :
  exists ds, s = ds ++ drop_digits s /\ forallb is_digit ds = true.
Proof.
  induction s as [|c s (ds & E & Hd)].
  - exists []. split; reflexivity.
  - cbn [drop_digits]. destruct (is_digit c) eqn:Hc.
    + exists (c :: ds). cbn [app forallb]. rewrite Hc, Hd, <- E.
      split; reflexivity.
    + exists []. split; reflexivity.
Qed.

Lemma drop_digits_app (ds ext : jsstring) :
  forallb is_digit ds = true ->
  List.map ascii_upper ext = lit ".PNG" ->
  drop_digits (ds ++ ext) = ext.
Proof.
  intros Hd He. induction ds as [|c ds IH].
  - destruct ext as [|e ext]; [discriminate He|].
    cbn [app drop_digits]. cbn [List.map] in He. injection He as He _.
    destruct (is_digit e) eqn:Hdig; [|reflexivity].
    exfalso. unfold is_digit in Hdig. unfold ascii_upper in He.
    apply andb_prop in Hdig. destruct Hdig as [H1 H2].
    apply N.leb_le in H1. apply N.leb_le in H2.
    destruct ((97 <=? e) && (e <=? 122))%N eqn:Hl.
    + apply andb_prop in Hl. destruct Hl as [H3 _]. apply N.leb_le in H3. lia.
    + subst e. vm_compute in H1. apply H1. reflexivity.
  - cbn [forallb] in Hd. apply andb_prop in Hd. destruct Hd as [Hc Hd].
    cbn [app drop_digits]. rewrite Hc. exact (IH Hd).
Qed.

Lemma image_path_shape (path : jsstring) :
  image_path path = true ->
  exists stem number ext,
    path = 47%N :: stem ++ number ++ ext
    /\ List.map ascii_upper stem = lit "IMAGE"
    /\ List.map ascii_upper ext = lit ".PNG"
    /\ (number = []
        \/ exists d ds,
             number = 95%N :: d :: ds
             /\ forallb is_digit (d :: ds) = true).
Proof.
  unfold image_path.
  destruct (strip_ci (lit "/image") path) as [rest|] eqn:E;
    [|discriminate].
  destruct (strip_ci_split _ _ _ E) as (q & -> & Hq).
  destruct q as [|slash stem]; [discriminate Hq|].
  cbn [List.map] in Hq. injection Hq as Hslash Hstem.
  assert (slash = 47%N) as ->.
  { change (ascii_upper slash = 47%N) in Hslash.
    unfold ascii_upper in Hslash.
    destruct ((97 <=? slash) && (slash <=? 122))%N eqn:Hl; [|exact Hslash].
    apply andb_prop in Hl. destruct Hl as [H1 _]. apply N.leb_le in H1.
    lia. }
  intros H.
  assert (Hcases :
    ends_png rest = true
    \/ exists c d r, rest = c :: d :: r
         /\ (c =? 95)%N = true /\ is_digit d = true
         /\ ends_png (drop_digits r) = true).
  { destruct rest as [|c [|d r]]; try (left; exact H).
    apply orb_prop in H. destruct H as [H|H]; [|left; exact H].
    apply andb_prop in H. destruct H as [H H3].
    apply andb_prop in H. destruct H as [H1 H2].
    right. exists c, d, r. repeat split; assumption. }
  destruct Hcases as [Hp|(c & d & r & -> & Hc & Hd & Hp)].
  + exists stem, [], rest. cbn [app].
    repeat split; [exact Hstem|apply ends_png_iff; exact Hp|left; reflexivity].
  + apply N.eqb_eq in Hc. subst c.
    destruct (drop_digits_split r) as (ds & Er & Hds).
    exists stem, (95%N :: d :: ds), (drop_digits r).
    split; [cbn [app]; rewrite <- Er; reflexivity|].
    split; [exact Hstem|]. split; [apply ends_png_iff; exact Hp|].
    right. exists d, ds. split; [reflexivity|].
    cbn [forallb]. rewrite Hd, Hds. reflexivity.
Qed.

Lemma image_path_of_shape (path : jsstring) :
  (exists stem number ext,
    path = 47%N :: stem ++ number ++ ext
    /\ List.map ascii_upper stem = lit "IMAGE"
    /\ List.map ascii_upper ext = lit ".PNG"
    /\ (number = []
        \/ exists d ds,
             number = 95%N :: d :: ds
             /\ forallb is_digit (d :: ds) = true)) ->
  image_path path = true.
Proof.
  unfold image_path.
  intros (stem & number & ext & -> & Hstem & Hext & Hnum).
  assert (E : strip_ci (lit "/image") (47%N :: stem ++ number ++ ext)
              = Some (number ++ ext)).
  { apply (strip_ci_app (lit "/image") (47%N :: stem) (number ++ ext)).
    cbn [List.map]. rewrite Hstem. reflexivity. }
  rewrite E. pose proof (proj2 (ends_png_iff ext) Hext) as Hp.
  destruct Hnum as [->|(d & ds & -> & Hd)].
  + cbn [app]. destruct ext as [|c [|d r]]; try exact Hp.
    rewrite Hp. apply orb_true_r.
  + cbn [app]. cbn [forallb] in Hd. apply andb_prop in Hd.
    destruct Hd as [Hd Hds].
    rewrite (drop_digits_app ds ext Hds Hext), Hd, Hp. reflexivity.
Qed.

(** The paths the image middleware takes are ["/image.png"] and
    ["/image_N.png"], [N] one or more digits, in any letter case, and no
    others. *)
Theorem image_path_language (path : jsstring) :
  image_path path = true <->
  exists stem number ext,
    path = 47%N :: stem ++ number ++ ext
    /\ List.map ascii_upper stem = lit "IMAGE"
    /\ List.map ascii_upper ext = lit ".PNG"
    /\ (number = []
        \/ exists d ds,
             number = 95%N :: d :: ds
             /\ forallb is_digit (d :: ds) = true).
Proof.
  split.
  - apply image_path_shape.
  - apply image_path_of_shape.
Qed.

Lemma not_slash_of_upper (s : jsstring) (word : string) :
  List.map ascii_upper s = lit word ->
  ~ In 47%N (lit word) ->
  ~ In 47%N s.
Proof.
  intros E Hn Hin. apply Hn. rewrite <- E.
  exact (in_map ascii_upper s 47%N Hin).
Qed.

(** A file the image middleware streams is either the favicon's fixed
    file or a file that exists directly in the server's directory, under
    the name asked for: the name begins with "image" and holds no ["/"],
    so no request reaches a file elsewhere through this middleware. *)
Theorem image_middleware_confined (existsSync : list jsstring -> bool)
    (path : jsstring) (filePath : list jsstring) :
  image_middleware existsSync path = SendFile filePath ->
  (path = lit "/favicon.ico"
   /\ filePath = [ lit "websites"; lit "assets"; lit "coze.png" ])
  \/ exists name,
       path = 47%N :: name
       /\ filePath = [ name ]
       /\ existsSync [ name ] = true
       /\ ~ In 47%N name
       /\ exists rest, List.map ascii_upper name = lit "IMAGE" ++ rest.
Proof.
  unfold image_middleware. destruct (image_path path) eqn:E.
  - apply image_path_shape in E.
    destruct E as (stem & number & ext & -> & Hstem & Hext & Hnum).
    change (strip_slash (47%N :: stem ++ number ++ ext))
      with (stem ++ number ++ ext).
    match goal with
    | |- context [if ?b then _ else _] => destruct b eqn:Hx
    end; [|discriminate].
    intros H. injection H as <-. right.
    exists (stem ++ number ++ ext).
    repeat split; try assumption.
    + intros Hin. apply in_app_or in Hin. destruct Hin as [Hin|Hin].
      * revert Hin. apply (not_slash_of_upper stem "IMAGE" Hstem).
        cbn. intuition discriminate.
      * apply in_app_or in Hin. destruct Hin as [Hin|Hin].
        -- destruct Hnum as [->|(d & ds & -> & Hd)]; [exact Hin|].
           destruct Hin as [Hin|Hin]; [discriminate Hin|].
           rewrite forallb_forall in Hd. specialize (Hd 47%N Hin).
           discriminate Hd.
        -- revert Hin. apply (not_slash_of_upper ext ".PNG" Hext).
           cbn. intuition discriminate.
    + exists (List.map ascii_upper (number ++ ext)).
      rewrite map_app, Hstem. reflexivity.
  - destruct (jsstring_eqb path (lit "/favicon.ico")) eqn:Ef; [|discriminate].
    apply jsstring_eqb_eq in Ef.
    destruct (existsSync _); [|discriminate].
    intros H. injection H as <-. left. split; [exact Ef|reflexivity].
Qed.

Lemma image_middleware_confined_witness :
  (lit "/image_7.png" = lit "/favicon.ico"
   /\ [ lit "image_7.png" ] = [ lit "websites"; lit "assets"; lit "coze.png" ])
  \/ exists name,
       lit "/image_7.png" = 47%N :: name
       /\ [ lit "image_7.png" ] = [ name ]
       /\ (fun _ : list jsstring => true) [ name ] = true
       /\ ~ In 47%N name
       /\ exists rest, List.map ascii_upper name = lit "IMAGE" ++ rest.
Proof.
  exact (image_middleware_confined (fun _ => true) (lit "/image_7.png")
           [ lit "image_7.png" ] eq_refl).
Defined.

(** * [/callback] and its pages *)

Ltac run_rendering :=
  cbv beta iota zeta delta
    [handle callback callback_rendering render session_codeVerifier
     assign_oauth with_session try_catch bind await assign_status assign_body
     set_session ctx_session throw ret start onerror rendered renderTemplate
     response_status next_session session status body trace option_map].

(** With both templates readable, [/callback] is the handler that keeps
    the page by name, with the page rendered: the same session, status and
    provider call, and as body the text of the template filled in. *)
Theorem callback_rendering_agrees {rt : JSRuntime} {api : CozeApi}
    (readFileSync : jsstring -> completion jsstring) (config : Config)
    (now : Z) (query : jsval) (s : Session) (error_html callback_html : jsstring) :
  readFileSync (lit "websites/" ++ lit "error.html") = Normal error_html ->
  readFileSync (lit "websites/" ++ lit "callback.html") = Normal callback_html ->
  session (handle (callback_rendering readFileSync config now query) s)
  = session (handle (callback config now query) s)
  /\ status (handle (callback_rendering readFileSync config now query) s)
     = status (handle (callback config now query) s)
  /\ trace (handle (callback_rendering readFileSync config now query) s)
     = trace (handle (callback config now query) s)
  /\ option_map Some
       (body (handle (callback_rendering readFileSync config now query) s))
     = option_map (rendered readFileSync)
         (body (handle (callback config now query) s)).
Proof.
  intros He Hc. run_rendering. unfold renderTemplate_text.
  destruct (truthy (get_prop query (lit "code")));
    [destruct (truthy (codeVerifier s));
     [destruct (getPKCEOAuthToken _ _ _ _ _)|]|];
    cbn [negb]; rewrite ?He, ?Hc; cbn [session status trace body option_map];
    rewrite ?He, ?Hc; repeat split.
Qed.

(** When the exchange succeeded but [callback.html] cannot be read, the
    record is already in the session: the request is answered 500 with the
    error page carrying the read error, and the session keeps the new
    tokens all the same. *)
Theorem callback_page_failure_keeps_record {rt : JSRuntime} {api : CozeApi}
    (readFileSync : jsstring -> completion jsstring) (config : Config)
    (now : Z) (query : jsval) (s : Session) (t : OAuthToken) (e : Error)
    (error_html : jsstring) :
  truthy (get_prop query (lit "code")) = true ->
  truthy (codeVerifier s) = true ->
  getPKCEOAuthToken (coze_api_base config) (client_id config)
    (get_prop query (lit "code")) REDIRECT_URI (codeVerifier s) = Normal t ->
  readFileSync (lit "websites/" ++ lit "callback.html") = Throw e ->
  readFileSync (lit "websites/" ++ lit "error.html") = Normal error_html ->
  response_status (handle (callback_rendering readFileSync config now query) s)
  = 500
  /\ oauth (next_session
       (handle (callback_rendering readFileSync config now query) s))
     = Some (new_record now t)
  /\ body (handle (callback_rendering readFileSync config now query) s)
     = Some (BValue (VStr
         (String_replace (placeholder (lit "error"))
            (lit "Failed to get access token: " ++ message e) error_html))).
Proof.
  intros Hc Hv Hp Hcb Her. run_rendering. unfold renderTemplate_text.
  rewrite Hc, Hv. cbn [negb]. rewrite Hp, Hcb, Her. repeat split.
Qed.

Lemma callback_page_failure_keeps_record_witness :
  response_status
    (handle (rt := sample_runtime) (callback_rendering (rt := sample_runtime)
               (api := answering_api sample_token)
               (only_error_page (lit "<p>{{error}}</p>")) sample_config 1000
               (code_query "c")) pending_session) = 500
  /\ oauth (next_session
       (handle (rt := sample_runtime) (callback_rendering (rt := sample_runtime)
                  (api := answering_api sample_token)
                  (only_error_page (lit "<p>{{error}}</p>")) sample_config
                  1000 (code_query "c")) pending_session))
     = Some (new_record (rt := sample_runtime) 1000 sample_token).
Proof.
  pose proof
    (callback_page_failure_keeps_record (rt := sample_runtime)
       (api := answering_api sample_token)
       (only_error_page (lit "<p>{{error}}</p>")) sample_config 1000
       (code_query "c") pending_session sample_token
       {| message := lit "ENOENT: no such file or directory" |}
       (lit "<p>{{error}}</p>") eq_refl eq_refl eq_refl eq_refl eq_refl) as H.
  exact (conj (proj1 H) (proj1 (proj2 H))).
Defined.

Lemma callback_rendering_agrees_witness :
  trace
    (handle (rt := sample_runtime) (callback_rendering (rt := sample_runtime)
               (api := answering_api sample_token)
               (reads_as (lit "<p>{{error}}{{access_token}}</p>"))
               sample_config 1000 (code_query "c")) pending_session)
  = trace
      (handle (rt := sample_runtime) (callback (rt := sample_runtime)
                 (api := answering_api sample_token) sample_config 1000
                 (code_query "c")) pending_session).
Proof.
  exact (proj1 (proj2 (proj2
    (callback_rendering_agrees (rt := sample_runtime)
       (api := answering_api sample_token)
       (reads_as (lit "<p>{{error}}{{access_token}}</p>")) sample_config 1000
       (code_query "c") pending_session _ _ eq_refl eq_refl)))).
Defined.

(** When neither page can be read, the second read error leaves the
    handler: Koa's default error handler answers and drops the session
    cookie the request would have set, so the browser keeps the session
    it came with and the tokens the provider just issued are lost. *)
Theorem callback_pages_unreadable {rt : JSRuntime} {api : CozeApi}
    (readFileSync : jsstring -> completion jsstring) (config : Config)
    (now : Z) (query : jsval) (s : Session) (t : OAuthToken)
    (e1 e2 : Error) :
  truthy (get_prop query (lit "code")) = true ->
  truthy (codeVerifier s) = true ->
  getPKCEOAuthToken (coze_api_base config) (client_id config)
    (get_prop query (lit "code")) REDIRECT_URI (codeVerifier s) = Normal t ->
  readFileSync (lit "websites/" ++ lit "callback.html") = Throw e1 ->
  readFileSync (lit "websites/" ++ lit "error.html") = Throw e2 ->
  next_session (handle (callback_rendering readFileSync config now query) s)
  = s
  /\ response_status
       (handle (callback_rendering readFileSync config now query) s)
     = fst (uncaught_response e2)
  /\ trace (handle (callback_rendering readFileSync config now query) s)
     = [ GetPKCEOAuthToken (coze_api_base config) (client_id config)
           (get_prop query (lit "code")) REDIRECT_URI (codeVerifier s) ].
Proof.
  intros Hc Hv Hp H1 H2. run_rendering. unfold renderTemplate_text.
  rewrite Hc, Hv. cbn [negb]. rewrite Hp, H1, H2. repeat split.
Qed.

Lemma callback_pages_unreadable_witness :
  next_session
    (handle (rt := sample_runtime)
       (callback_rendering (rt := sample_runtime)
          (api := answering_api sample_token)
          (fun _ => Throw {| message := lit "ENOENT: no such file or directory" |})
          sample_config 1000 (code_query "c")) pending_session)
  = pending_session.
Proof.
  exact (proj1
    (callback_pages_unreadable (rt := sample_runtime)
       (api := answering_api sample_token)
       (fun _ => Throw {| message := lit "ENOENT: no such file or directory" |})
       sample_config 1000 (code_query "c") pending_session sample_token
       {| message := lit "ENOENT: no such file or directory" |}
       {| message := lit "ENOENT: no such file or directory" |}
       eq_refl eq_refl eq_refl eq_refl eq_refl)).
Defined.
